(** * Rotating file log writer (package [logger], file.go)

    A shallow embedding of [fileLogger] and its methods, over an explicit
    model of the part of the Go runtime and of the operating system that the
    methods call: 64-bit [int] arithmetic, strings, [time.Time], path
    functions, [strconv.ParseInt], and a file system with inodes, open
    handles, a clock, an error sink and injectable system-call failures. *)

From Stdlib Require Import ZArith Ascii String List Lia Bool.
From stdpp Require Import base option list gmap strings fin_maps.

Open Scope string_scope.
Open Scope Z_scope.

(** ** Go values *)

Module Go.

(** [int] and [int64] are 64-bit two's complement on the platforms the
    program targets; arithmetic wraps around. *)
Definition int_min : Z := - 2 ^ 63.
Definition int_max : Z := 2 ^ 63 - 1.

Definition wrap64 (z : Z) : Z := (z + 2 ^ 63) mod 2 ^ 64 - 2 ^ 63.

Definition in_int (z : Z) : Prop := int_min <= z <= int_max.

Definition int_add (a b : Z) : Z := wrap64 (a + b).
Definition int_mul (a b : Z) : Z := wrap64 (a * b).

(** [len(s)] for a string: its number of bytes. *)
Definition len (s : string) : Z := Z.of_nat (String.length s).

(** [[]byte(s)] *)
Definition bytes_of (s : string) : list ascii := list_ascii_of_string s.

Definition newline : ascii := ascii_of_nat 10.
Definition nl : string := String newline EmptyString.

(** [bytes.Count(b, []byte{c})]: the number of bytes of [b] equal to [c]. *)
Fixpoint bytes_Count (b : list ascii) (c : ascii) : Z :=
  match b with
  | [] => 0
  | x :: b' => (if Ascii.eqb x c then 1 else 0) + bytes_Count b' c
  end.

Fixpoint has_prefix (p s : list ascii) : bool :=
  match p, s with
  | [], _ => true
  | _ :: _, [] => false
  | a :: p', b :: s' => Ascii.eqb a b && has_prefix p' s'
  end.

(** [strings.HasPrefix], [strings.HasSuffix], [strings.TrimSuffix] *)
Definition strings_HasPrefix (s prefix : string) : bool :=
  has_prefix (bytes_of prefix) (bytes_of s).

Definition strings_HasSuffix (s suffix : string) : bool :=
  has_prefix (rev (bytes_of suffix)) (rev (bytes_of s)).

Definition strings_TrimSuffix (s suffix : string) : string :=
  if strings_HasSuffix s suffix
  then string_of_list_ascii
         (take (String.length s - String.length suffix)%nat (bytes_of s))
  else s.

(** Decimal digits of a non-negative number, most significant first. *)
Definition digit (d : Z) : ascii := ascii_of_nat (48 + Z.to_nat d).

Fixpoint digits_go (fuel : nat) (n : Z) (acc : string) : string :=
  match fuel with
  | O => acc
  | S k =>
      let acc' := String (digit (n mod 10)) acc in
      if n <? 10 then acc' else digits_go k (n / 10) acc'
  end.

Definition digits (n : Z) : string := digits_go 20 n EmptyString.

Fixpoint zeros (k : nat) : string :=
  match k with O => EmptyString | S k' => String "0"%char (zeros k') end.

(** Zero padding to [width] digits, a sign first for negative numbers:
    what [%0Nd] prints, and what the time formatter does for each field. *)
Definition pad_int (width : nat) (x : Z) : string :=
  if x <? 0 then
    let d := digits (- x) in
    "-" ++ zeros (width - 1 - String.length d) ++ d
  else
    let d := digits x in
    zeros (width - String.length d) ++ d.

(** [fmt.Sprintf("%03d", n)] *)
Definition fmt_03d (n : Z) : string := pad_int 3 n.

(** [strconv.ParseInt(s, 8, 64)]: an optional sign, then one or more
    octal digits; the value must fit in 64 bits. *)
Definition octal_digit (c : ascii) : option Z :=
  let n := Z.of_nat (nat_of_ascii c) in
  if (48 <=? n) && (n <=? 55) then Some (n - 48) else None.

Fixpoint parse_octal_digits (cs : list ascii) (acc : Z) : option Z :=
  match cs with
  | [] => Some acc
  | c :: cs' =>
      match octal_digit c with
      | Some d => parse_octal_digits cs' (8 * acc + d)
      | None => None
      end
  end.

Definition strconv_ParseInt8 (s : string) : option Z :=
  let signed (neg : bool) (cs : list ascii) :=
    match cs with
    | [] => None
    | _ =>
        match parse_octal_digits cs 0 with
        | Some v =>
            let v' := if neg then - v else v in
            if (int_min <=? v') && (v' <=? int_max) then Some v' else None
        | None => None
        end
    end in
  match bytes_of s with
  | [] => None
  | c :: cs =>
      if Ascii.eqb c "+"%char then signed false cs
      else if Ascii.eqb c "-"%char then signed true cs
      else signed false (c :: cs)
  end.

(** *** [time.Time]

    An instant is a number of nanoseconds since the Unix epoch, read as a
    wall clock in one fixed location (UTC). Instants stay far from the
    limits of the representation, so [Add] is exact. A [time.Duration] is
    an [int64] number of nanoseconds. *)
Definition Time := Z.

Definition time_Hour : Z := 3600 * 1000000000.

Definition ns_per_day : Z := 86400 * 1000000000.

(** Proleptic Gregorian date of a day number counted from 1970-01-01. *)
Definition civil_from_days (days : Z) : Z * Z * Z :=
  let z := days + 719468 in
  let era := z / 146097 in
  let doe := z - era * 146097 in
  let yoe := (doe - doe / 1460 + doe / 36524 - doe / 146096) / 365 in
  let y := yoe + era * 400 in
  let doy := doe - (365 * yoe + yoe / 4 - yoe / 100) in
  let mp := (5 * doy + 2) / 153 in
  let d := doy - (153 * mp + 2) / 5 + 1 in
  let m := if mp <? 10 then mp + 3 else mp - 9 in
  (if m <=? 2 then y + 1 else y, m, d).

Definition time_date (t : Time) : Z * Z * Z := civil_from_days (t / ns_per_day).

(** [t.Day()]: the day of the month. *)
Definition time_Day (t : Time) : Z := snd (time_date t).

(** [t.Format("2006-01-02")] *)
Definition time_Format_date (t : Time) : string :=
  let '(y, m, d) := time_date t in
  pad_int 4 y ++ "-" ++ pad_int 2 m ++ "-" ++ pad_int 2 d.

(** [t.Add(d)] and [t.Before(u)] *)
Definition time_Add (t : Time) (d : Z) : Time := t + d.
Definition time_Before (t u : Time) : bool := t <? u.

(** *** Paths ([path/filepath], Unix separator)

    Paths are kept in their cleaned form (no [.] or [..] elements, no
    doubled or trailing separators); [filepath_Dir] is written for those. *)
Definition is_sep (c : ascii) : bool := Ascii.eqb c "/"%char.

(** [filepath.Ext]: the suffix starting at the last dot of the last
    element, empty when there is none. Scans the reversed path. *)
Fixpoint ext_go (r : list ascii) (acc : list ascii) : list ascii :=
  match r with
  | [] => []
  | c :: r' =>
      if is_sep c then []
      else if Ascii.eqb c "."%char then c :: acc
      else ext_go r' (c :: acc)
  end.

Definition filepath_Ext (path : string) : string :=
  string_of_list_ascii (ext_go (rev (bytes_of path)) []).

Fixpoint drop_seps (r : list ascii) : list ascii :=
  match r with
  | c :: r' => if is_sep c then drop_seps r' else r
  | [] => []
  end.

Fixpoint last_elem (r : list ascii) (acc : list ascii) : list ascii :=
  match r with
  | [] => acc
  | c :: r' => if is_sep c then acc else last_elem r' (c :: acc)
  end.

(** [filepath.Base] *)
Definition filepath_Base (path : string) : string :=
  match bytes_of path with
  | [] => "."
  | cs =>
      match last_elem (drop_seps (rev cs)) [] with
      | [] => "/"
      | e => string_of_list_ascii e
      end
  end.

Fixpoint dir_go (r : list ascii) : option (list ascii) :=
  match r with
  | [] => None
  | c :: r' => if is_sep c then Some r' else dir_go r'
  end.

(** [filepath.Dir] on a cleaned path. *)
Definition filepath_Dir (path : string) : string :=
  match dir_go (rev (bytes_of path)) with
  | None => "."
  | Some [] => "/"
  | Some r => string_of_list_ascii (rev r)
  end.

End Go.

(** ** Operating system *)

Module OS.

Inductive cause := NotExist | IsDir | Closed | Injected.

(** Go [error] values, by the constructor that made them. *)
Inductive error :=
| PathError (op path : string) (c : cause)      (* *os.PathError *)
| LinkError (op old new : string) (c : cause)   (* *os.LinkError *)
| ErrInvalid                                    (* os.ErrInvalid: nil *os.File *)
| NumError (fn num : string)                    (* *strconv.NumError *)
| errors_New (msg : string)                     (* errors.New, fmt.Errorf without operand *)
| fmt_Errorf (prefix : string) (e : error)      (* fmt.Errorf("<prefix>: %s", e) *)
| io_EOF
| DecodeError (msg : string).                   (* an error of encoding/json *)

Inductive result (A : Type) := Ok (a : A) | Err (e : error).
Arguments Ok {A} a.
Arguments Err {A} e.

(** What is written to [common.StdErr], by format string:
    - [RepCreateFresh]: ["createFreshFile(%q): %s\n"]
    - [RepRename]: ["os.Rename %s to %s err:%s\n"] *)
Inductive report :=
| RepCreateFresh (filename : string) (e : error)
| RepRename (old new : string) (e : error).

Record inode := mkInode {
  i_dir : bool;
  i_data : list ascii;
  i_mode : Z;
  i_mtime : Go.Time
}.

(** The system calls that can be made to fail from outside (permissions,
    read-only or full file system, I/O errors). *)
Inductive syscall :=
| SysOpenFile (path : string)
| SysOpen (path : string)
| SysFstat (ino : nat)
| SysRead (ino : nat) (off : nat)
| SysWrite (ino : nat)
| SysRename (old new : string)
| SysChmod (path : string)
| SysRemove (path : string).

Record world := mkWorld {
  w_names : gmap string nat;      (* directory entries: path to inode number *)
  w_inodes : gmap nat inode;
  w_umask : Z;
  w_now : Go.Time;                (* time.Now() *)
  w_fails : syscall -> bool;
  w_stderr : list report;         (* the error sink, oldest first *)
  w_sweeps : nat                  (* retention sweeps started with [go] *)
}.

(** An [*os.File]: the inode it was opened on, and whether it is closed. *)
Record handle := mkHandle {
  h_name : string;
  h_ino : nat;
  h_closed : bool
}.

Definition set_fs (names : gmap string nat) (inodes : gmap nat inode) (w : world) : world :=
  mkWorld names inodes (w_umask w) (w_now w) (w_fails w) (w_stderr w) (w_sweeps w).

Definition stderr_print (r : report) (w : world) : world :=
  mkWorld (w_names w) (w_inodes w) (w_umask w) (w_now w) (w_fails w)
          (w_stderr w ++ [r]) (w_sweeps w).

Definition spawn_sweep (w : world) : world :=
  mkWorld (w_names w) (w_inodes w) (w_umask w) (w_now w) (w_fails w)
          (w_stderr w) (S (w_sweeps w)).

Definition perm_bits (perm : Z) : Z := Z.land perm 511.

(** [os.Lstat]: fails exactly when the path has no entry (or no inode
    behind it). *)
Definition os_Lstat (path : string) (w : world) : option inode :=
  match w_names w !! path with
  | Some i => w_inodes w !! i
  | None => None
  end.

(** [os.OpenFile(path, O_WRONLY|O_APPEND|O_CREATE, perm)]: a new file gets
    the permission bits left by the umask. *)
Definition os_OpenFile (path : string) (perm : Z) (w : world) : result handle * world :=
  if w_fails w (SysOpenFile path) then (Err (PathError "open" path Injected), w)
  else match w_names w !! path with
       | Some i =>
           match w_inodes w !! i with
           | Some ino =>
               if i_dir ino then (Err (PathError "open" path IsDir), w)
               else (Ok (mkHandle path i false), w)
           | None => (Err (PathError "open" path NotExist), w)
           end
       | None =>
           let i := fresh (dom (w_inodes w)) in
           let ino := mkInode false [] (Z.ldiff (perm_bits perm) (w_umask w)) (w_now w) in
           (Ok (mkHandle path i false),
            set_fs (<[path := i]> (w_names w)) (<[i := ino]> (w_inodes w)) w)
       end.

(** [os.Chmod] *)
Definition os_Chmod (path : string) (perm : Z) (w : world) : option error * world :=
  if w_fails w (SysChmod path) then (Some (PathError "chmod" path Injected), w)
  else match w_names w !! path with
       | Some i =>
           match w_inodes w !! i with
           | Some ino =>
               (None, set_fs (w_names w)
                        (<[i := mkInode (i_dir ino) (i_data ino) (perm_bits perm) (i_mtime ino)]>
                           (w_inodes w)) w)
           | None => (Some (PathError "chmod" path NotExist), w)
           end
       | None => (Some (PathError "chmod" path NotExist), w)
       end.

(** [file.Stat()] *)
Definition file_Stat (h : handle) (w : world) : result inode :=
  if h_closed h then Err (PathError "stat" (h_name h) Closed)
  else if w_fails w (SysFstat (h_ino h)) then Err (PathError "stat" (h_name h) Injected)
  else match w_inodes w !! h_ino h with
       | Some ino => Ok ino
       | None => Err (PathError "stat" (h_name h) NotExist)
       end.

(** [os.Open(path)]: the inode to read from. *)
Definition os_Open (path : string) (w : world) : result nat :=
  if w_fails w (SysOpen path) then Err (PathError "open" path Injected)
  else match w_names w !! path with
       | Some i => if w_inodes w !! i is Some _ then Ok i else Err (PathError "open" path NotExist)
       | None => Err (PathError "open" path NotExist)
       end.

(** [fd.Read(buf)] with [len(buf) = size], at offset [off] of a regular
    file: the bytes read and the error; [io.EOF] with no bytes at the end. *)
Definition file_Read (path : string) (i : nat) (off size : nat) (w : world)
  : list ascii * option error :=
  if w_fails w (SysRead i off) then ([], Some (PathError "read" path Injected))
  else match w_inodes w !! i with
       | Some ino =>
           if i_dir ino then ([], Some (PathError "read" path IsDir))
           else match take size (drop off (i_data ino)) with
                | [] => ([], Some io_EOF)
                | chunk => (chunk, None)
                end
       | None => ([], Some (PathError "read" path NotExist))
       end.

(** [file.Write(b)] on a file opened with [O_APPEND]. A nil [*os.File]
    gives [ErrInvalid], a closed one "file already closed". *)
Definition file_Write (fw : option handle) (b : list ascii) (w : world) : option error * world :=
  match fw with
  | None => (Some ErrInvalid, w)
  | Some h =>
      if h_closed h then (Some (PathError "write" (h_name h) Closed), w)
      else if w_fails w (SysWrite (h_ino h)) then (Some (PathError "write" (h_name h) Injected), w)
      else match w_inodes w !! h_ino h with
           | Some ino =>
               (None, set_fs (w_names w)
                        (<[h_ino h := mkInode (i_dir ino) (i_data ino ++ b) (i_mode ino) (w_now w)]>
                           (w_inodes w)) w)
           | None => (Some (PathError "write" (h_name h) NotExist), w)
           end
  end.

(** [file.Close()]; every caller drops the error it returns. *)
Definition file_Close (fw : option handle) : option handle :=
  match fw with
  | Some h => Some (mkHandle (h_name h) (h_ino h) true)
  | None => None
  end.

(** [os.Rename]: replaces the target entry when there is one. *)
Definition os_Rename (old new : string) (w : world) : option error * world :=
  if w_fails w (SysRename old new) then (Some (LinkError "rename" old new Injected), w)
  else match w_names w !! old with
       | Some i => (None, set_fs (<[new := i]> (delete old (w_names w))) (w_inodes w) w)
       | None => (Some (LinkError "rename" old new NotExist), w)
       end.

(** [os.Remove] *)
Definition os_Remove (path : string) (w : world) : option error * world :=
  if w_fails w (SysRemove path) then (Some (PathError "remove" path Injected), w)
  else match w_names w !! path with
       | Some _ => (None, set_fs (delete path (w_names w)) (w_inodes w) w)
       | None => (Some (PathError "remove" path NotExist), w)
       end.

(** Whether [p] lies in the tree rooted at the directory [dir]. *)
Definition under (dir p : string) : bool :=
  if String.eqb dir "." then negb (Go.strings_HasPrefix p "/")
  else if String.eqb dir "/" then Go.strings_HasPrefix p "/"
  else String.eqb p dir || Go.strings_HasPrefix p (dir ++ "/").

Definition root_exists (dir : string) (w : world) : bool :=
  String.eqb dir "." || String.eqb dir "/" || bool_decide (is_Some (os_Lstat dir w)).

Definition walk_paths (dir : string) (w : world) : list string :=
  filter (fun p => under dir p = true) (map fst (map_to_list (w_names w))).

(** [filepath.Walk(root, fn)] for a callback that never returns an error:
    [fn] is called on every entry of the tree with the result of an
    [Lstat] made at that moment, or once on the root with no info when the
    root cannot be examined. The order of the visits is not the lexical
    one of the library. *)
Definition filepath_Walk (root : string)
    (fn : string -> option inode -> world -> world) (w : world) : world :=
  if root_exists root w
  then foldl (fun w' p => fn p (os_Lstat p w') w') w (walk_paths root w)
  else fn root None w.

End OS.

(** ** The file logger *)

Module Logger.
Import OS.

(** [type logLevel int] *)
Definition logLevel := Z.

Record fileLogger := mkFileLogger {
  fileWriter : option handle;
  Filename : string;
  Append : bool;
  MaxLines : Z;
  MaxSize : Z;
  Daily : bool;
  MaxDays : Z;
  Level : string;
  PermitMask : string;
  LogLevel : logLevel;
  maxSizeCurSize : Z;
  maxLinesCurLines : Z;
  dailyOpenDate : Z;
  dailyOpenTime : Go.Time;
  fileNameOnly : string;
  suffix : string
}.

(** Assignments to fields. *)
Definition set_fileWriter (fw : option handle) (f : fileLogger) : fileLogger :=
  mkFileLogger fw (Filename f) (Append f) (MaxLines f) (MaxSize f) (Daily f)
    (MaxDays f) (Level f) (PermitMask f) (LogLevel f) (maxSizeCurSize f)
    (maxLinesCurLines f) (dailyOpenDate f) (dailyOpenTime f) (fileNameOnly f) (suffix f).

Definition set_opened (size : Z) (now : Go.Time) (f : fileLogger) : fileLogger :=
  mkFileLogger (fileWriter f) (Filename f) (Append f) (MaxLines f) (MaxSize f) (Daily f)
    (MaxDays f) (Level f) (PermitMask f) (LogLevel f) size
    0 (Go.time_Day now) now (fileNameOnly f) (suffix f).

Definition set_counters (lines size : Z) (f : fileLogger) : fileLogger :=
  mkFileLogger (fileWriter f) (Filename f) (Append f) (MaxLines f) (MaxSize f) (Daily f)
    (MaxDays f) (Level f) (PermitMask f) (LogLevel f) size
    lines (dailyOpenDate f) (dailyOpenTime f) (fileNameOnly f) (suffix f).

Definition set_names (only sfx : string) (f : fileLogger) : fileLogger :=
  mkFileLogger (fileWriter f) (Filename f) (Append f) (MaxLines f) (MaxSize f) (Daily f)
    (MaxDays f) (Level f) (PermitMask f) (LogLevel f) (maxSizeCurSize f)
    (maxLinesCurLines f) (dailyOpenDate f) (dailyOpenTime f) only sfx.

Definition set_MaxSize (n : Z) (f : fileLogger) : fileLogger :=
  mkFileLogger (fileWriter f) (Filename f) (Append f) (MaxLines f) n (Daily f)
    (MaxDays f) (Level f) (PermitMask f) (LogLevel f) (maxSizeCurSize f)
    (maxLinesCurLines f) (dailyOpenDate f) (dailyOpenTime f) (fileNameOnly f) (suffix f).

Definition set_LogLevel (l : logLevel) (f : fileLogger) : fileLogger :=
  mkFileLogger (fileWriter f) (Filename f) (Append f) (MaxLines f) (MaxSize f) (Daily f)
    (MaxDays f) (Level f) (PermitMask f) l (maxSizeCurSize f)
    (maxLinesCurLines f) (dailyOpenDate f) (dailyOpenTime f) (fileNameOnly f) (suffix f).

(** What a method leaves behind: the error it returns (none for [nil]),
    the receiver, the world. *)
Definition outcome : Type := option error * fileLogger * world.

(** [needCreateFresh] *)
Definition needCreateFresh (f : fileLogger) (size day : Z) : bool :=
  ((MaxLines f >? 0) && (maxLinesCurLines f >=? MaxLines f))
  || ((MaxSize f >? 0) && (Go.int_add (maxSizeCurSize f) size >=? MaxSize f))
  || (Daily f && negb (day =? dailyOpenDate f)).

(** [createLogFile] *)
Definition createLogFile (f : fileLogger) (w : world) : result handle * world :=
  match Go.strconv_ParseInt8 (PermitMask f) with
  | None => (Err (NumError "ParseInt" (PermitMask f)), w)
  | Some perm =>
      match os_OpenFile (Filename f) perm w with
      | (Ok fd, w1) =>
          match os_Chmod (Filename f) perm w1 with
          | (Some e, w2) => (Err e, w2)
          | (None, w2) => (Ok fd, w2)
          end
      | (Err e, w1) => (Err e, w1)
      end
  end.

(** [buf := make([]byte, 32768)] *)
Definition buf_len : nat := Z.to_nat 32768.

(** The loop of [lines]: one read of [len(buf)] bytes per turn, counting the
    line separators of what was read. [None] when the fuel runs out. *)
Fixpoint lines_loop (fuel : nat) (path : string) (fd : nat) (off : nat) (count : Z)
    (w : world) : option (Z * option error) :=
  match fuel with
  | O => None
  | S k =>
      match file_Read path fd off buf_len w with
      | (c, Some io_EOF) => Some (count + Go.bytes_Count c Go.newline, None)
      | (c, Some e) => Some (count, Some e)
      | (c, None) =>
          lines_loop k path fd (off + length c)%nat (count + Go.bytes_Count c Go.newline) w
      end
  end.

Definition file_size (fd : nat) (w : world) : nat :=
  match w_inodes w !! fd with
  | Some ino => length (i_data ino)
  | None => O
  end.

(** [lines]: every turn of the loop but the last consumes at least one
    byte, so one more turn than the file has bytes is enough
    ([lines_loop_total] below); the last arm is never taken. *)
Definition lines (f : fileLogger) (w : world) : Z * option error :=
  match os_Open (Filename f) w with
  | Err e => (0, Some e)
  | Ok fd =>
      match lines_loop (S (file_size fd w)) (Filename f) fd 0 0 w with
      | Some r => r
      | None => (0, None)
      end
  end.

(** [newFile] *)
Definition newFile (f : fileLogger) (w : world) : outcome :=
  match createLogFile f w with
  | (Err e, w1) => (Some e, f, w1)
  | (Ok file, w1) =>
      (* the previous handle, closed here, is dropped *)
      let f1 := set_fileWriter (Some file) f in
      match file_Stat file w1 with
      | Err e => (Some (fmt_Errorf "get stat err" e), f1, w1)
      | Ok fInfo =>
          let f2 := set_opened (Z.of_nat (length (i_data fInfo))) (w_now w1) f1 in
          if maxSizeCurSize f2 >? 0 then
            match lines f2 w1 with
            | (_, Some e) => (Some e, f2, w1)
            | (count, None) =>
                (None, set_counters count (maxSizeCurSize f2) f2, w1)
            end
          else (None, f2, w1)
      end
  end.

(** The closure [RestartLogger] of [createFreshFile]; [go fl.deleteOldLog()]
    starts a sweep that runs on its own. *)
Definition RestartLogger (fl : fileLogger) (w : world) : outcome :=
  let '(startLoggerErr, fl1, w1) := newFile fl w in
  let w2 := spawn_sweep w1 in
  match startLoggerErr with
  | Some e => (Some (fmt_Errorf "rotate StartLogger" e), fl1, w2)
  | None => (None, fl1, w2)
  end.

(** [f.fileNameOnly + fmt.Sprintf(".%s.%03d%s", t.Format("2006-01-02"), num, f.suffix)] *)
Definition archiveName (f : fileLogger) (stamp : Go.Time) (num : Z) : string :=
  fileNameOnly f ++ ("." ++ Go.time_Format_date stamp ++ "." ++ Go.fmt_03d num ++ suffix f).

(** [for ; err == nil && num <= 999; num++ { fName = ...; _, err = os.Lstat(fName) }]
    The body runs at most 999 times from [num = 1]. *)
Fixpoint probe (fuel : nat) (f : fileLogger) (stamp : Go.Time) (w : world)
    (num : Z) (fName : string) (err : option error) : Z * string * option error :=
  match fuel with
  | O => (num, fName, err)
  | S k =>
      match err with
      | None =>
          if num <=? 999 then
            let fName' := archiveName f stamp num in
            let err' := match os_Lstat fName' w with
                        | Some _ => None
                        | None => Some (PathError "lstat" fName' NotExist)
                        end in
            probe k f stamp w (num + 1) fName' err'
          else (num, fName, err)
      | Some _ => (num, fName, err)
      end
  end.

(** [createFreshFile] *)
Definition createFreshFile (logTime : Go.Time) (f : fileLogger) (w : world) : outcome :=
  match Go.strconv_ParseInt8 (PermitMask f) with
  | None => (Some (NumError "ParseInt" (PermitMask f)), f, w)
  | Some rotatePerm =>
      match os_Lstat (Filename f) w with
      | None => RestartLogger f w
      | Some _ =>
          let '(num, fName, err) :=
            if negb (dailyOpenDate f =? Go.time_Day logTime)
            then probe 999 f (dailyOpenTime f) w 1 "" None
            else probe 999 f logTime w 1 "" None in
          match err with
          | None =>
              (Some (errors_New ("cannot find free log number to rename " ++ Filename f)), f, w)
          | Some _ =>
              let f1 := set_fileWriter (file_Close (fileWriter f)) f in
              match os_Rename (Filename f) fName w with
              | (Some e, w1) =>
                  RestartLogger f1 (stderr_print (RepRename (Filename f) fName e) w1)
              | (None, w1) =>
                  match os_Chmod fName rotatePerm w1 with
                  | (Some e, w2) => (Some (fmt_Errorf "rotate" e), f1, w2)
                  | (None, w2) => RestartLogger f1 w2
                  end
              end
          end
      end
  end.

(** The argument [msgText interface{}] of [LogWrite]. *)
Inductive iface := IString (s : string) | IOther.

(** The first half of [LogWrite]: the rotation, done when [Append] is set
    and the trigger holds, checked again once the exclusive lock is held.
    A rotation error goes to the error sink. Calls are run one at a time. *)
Definition rotate_if_due (when : Go.Time) (msg : string) (f : fileLogger) (w : world)
  : fileLogger * world :=
  let day := Go.time_Day when in
  if Append f then
    if needCreateFresh f (Go.len msg) day then
      if needCreateFresh f (Go.len msg) day then
        match createFreshFile when f w with
        | (Some err, f1, w1) => (f1, stderr_print (RepCreateFresh (Filename f1) err) w1)
        | (None, f1, w1) => (f1, w1)
        end
      else (f, w)
    else (f, w)
  else (f, w).

(** [LogWrite] *)
Definition LogWrite (when : Go.Time) (msgText : iface) (level : logLevel)
    (f : fileLogger) (w : world) : outcome :=
  match msgText with
  | IOther => (None, f, w)
  | IString msg0 =>
      if level >? LogLevel f then (None, f, w)
      else
        let msg := msg0 ++ Go.nl in
        let '(f1, w1) := rotate_if_due when msg f w in
        match file_Write (fileWriter f1) (Go.bytes_of msg) w1 with
        | (None, w2) =>
            (None,
             set_counters (Go.int_add (maxLinesCurLines f1) 1)
                          (Go.int_add (maxSizeCurSize f1) (Go.len msg)) f1,
             w2)
        | (Some err, w2) => (Some err, f1, w2)
        end
  end.

(** The callback of [deleteOldLog]. Nothing in it panics, so the deferred
    [recover] prints nothing; the result of [os.Remove] is dropped. *)
Definition deleteOldLog_visit (f : fileLogger) (path : string) (info : option inode)
    (w : world) : world :=
  match info with
  | None => w
  | Some info =>
      if negb (MaxDays f =? -1) && negb (i_dir info)
         && Go.time_Before
              (Go.time_Add (i_mtime info) (Go.int_mul (24 * Go.time_Hour) (MaxDays f)))
              (w_now w)
      then
        if Go.strings_HasPrefix (Go.filepath_Base path) (Go.filepath_Base (fileNameOnly f))
           && Go.strings_HasSuffix (Go.filepath_Base path) (suffix f)
        then snd (os_Remove path w)
        else w
      else w
  end.

(** [deleteOldLog]: the walk returns no error, the callback returning none. *)
Definition deleteOldLog (f : fileLogger) (w : world) : world :=
  filepath_Walk (Go.filepath_Dir (Filename f)) (deleteOldLog_visit f) w.

(** [Destroy] *)
Definition Destroy (f : fileLogger) : fileLogger :=
  set_fileWriter (file_Close (fileWriter f)) f.

Section Init.
(** [json.Unmarshal([]byte(jsonConfig), f)]: the error and the receiver
    with the decoded fields assigned. [LevelMap] and [LevelDebug] belong
    to the logging facade. *)
Variable json_Unmarshal : string -> fileLogger -> option error * fileLogger.
Variable LevelMap : string -> option logLevel.
Variable LevelDebug : logLevel.

(** [Init] *)
Definition Init (jsonConfig : string) (f : fileLogger) (w : world) : outcome :=
  if Go.len jsonConfig =? 0 then (None, f, w)
  else
    match json_Unmarshal jsonConfig f with
    | (Some err, f1) => (Some err, f1, w)
    | (None, f1) =>
        if Go.len (Filename f1) =? 0
        then (Some (errors_New "jsonConfig must have filename"), f1, w)
        else
          let sfx := Go.filepath_Ext (Filename f1) in
          let f2 := set_names (Go.strings_TrimSuffix (Filename f1) sfx) sfx f1 in
          let f3 := set_MaxSize (Go.int_mul (MaxSize f2) (1024 * 1024)) f2 in
          let f4 := if String.eqb (suffix f3) ""
                    then set_names (fileNameOnly f3) ".log" f3 else f3 in
          let f5 := match LevelMap (Level f4) with
                    | Some l => set_LogLevel l f4
                    | None => f4
                    end in
          newFile f5 w
    end.

(** The logger registered by [init()]. *)
Definition registered : fileLogger :=
  mkFileLogger None "" true 10 (10 * 1024 * 1024) true 7 "" "0777" LevelDebug
    0 0 0 (-62135596800 * 1000000000) "" "".
End Init.

End Logger.

(** ** Observations and concrete states *)

Import OS Logger.

Definition out_err (o : outcome) : option error := fst (fst o).
Definition out_logger (o : outcome) : fileLogger := snd (fst o).
Definition out_world (o : outcome) : world := snd o.

(** The logger holds a file that can be written to. *)
Definition handle_open (f : fileLogger) : bool :=
  match fileWriter f with
  | Some h => negb (h_closed h)
  | None => false
  end.


(** The instant whose date stamps the archival name in [createFreshFile]. *)
Definition rotation_stamp (logTime : Go.Time) (f : fileLogger) : Go.Time :=
  if negb (dailyOpenDate f =? Go.time_Day logTime) then dailyOpenTime f else logTime.

(** The test of [deleteOldLog] on the age of an entry, and on its name. *)
Definition expired (f : fileLogger) (info : inode) (now : Go.Time) : bool :=
  negb (MaxDays f =? -1) && negb (i_dir info)
  && Go.time_Before
       (Go.time_Add (i_mtime info) (Go.int_mul (24 * Go.time_Hour) (MaxDays f))) now.

Definition name_matches (f : fileLogger) (path : string) : bool :=
  Go.strings_HasPrefix (Go.filepath_Base path) (Go.filepath_Base (fileNameOnly f))
  && Go.strings_HasSuffix (Go.filepath_Base path) (suffix f).

(** [lines] newline-terminated lines, one after the other. *)
Definition terminated (ls : list (list ascii)) : list ascii :=
  concat (map (fun l => (l ++ [Go.newline])%list) ls).

(** The settings, which no method but [Init] assigns. *)
Definition same_settings (f f' : fileLogger) : Prop :=
  Filename f' = Filename f /\ Append f' = Append f /\ MaxLines f' = MaxLines f
  /\ MaxSize f' = MaxSize f /\ Daily f' = Daily f /\ MaxDays f' = MaxDays f
  /\ PermitMask f' = PermitMask f /\ LogLevel f' = LogLevel f
  /\ fileNameOnly f' = fileNameOnly f /\ suffix f' = suffix f.

(** The parts of the world that opening a file leaves alone. *)
Definition same_env (w w' : world) : Prop :=
  w_stderr w' = w_stderr w /\ w_sweeps w' = w_sweeps w /\ w_now w' = w_now w
  /\ w_fails w' = w_fails w /\ w_umask w' = w_umask w.

(** [k] is the lowest sequence number whose archival name is not on disk. *)
Definition first_free (f : fileLogger) (stamp : Go.Time) (w : world) (k : Z) : Prop :=
  os_Lstat (archiveName f stamp k) w = None
  /\ forall j, 1 <= j < k -> is_Some (os_Lstat (archiveName f stamp j) w).

(** The file at [path], absent or regular, holds [data]. *)
Definition log_file (w : world) (path : string) (data : list ascii) : Prop :=
  (w_names w !! path = None /\ data = [])
  \/ exists (i : nat) ino,
       w_names w !! path = Some i /\ w_inodes w !! i = Some ino
       /\ i_dir ino = false /\ i_data ino = data.

(** The sweep removes the entry [p]. *)
Definition swept (f : fileLogger) (w : world) (p : string) : bool :=
  match os_Lstat p w with
  | Some info =>
      expired f info (w_now w) && name_matches f p && negb (w_fails w (SysRemove p))
  | None => false
  end.

(** One visit of the walk of [deleteOldLog]. *)
Definition sweep_step (f : fileLogger) (w : world) (p : string) : world :=
  deleteOldLog_visit f p (os_Lstat p w) w.

(** While the handle is open, the counters are the size and the number of
    line terminators of the file behind it. *)
Definition counters_match (f : fileLogger) (w : world) : Prop :=
  forall h, fileWriter f = Some h -> h_closed h = false ->
    exists ino,
      w_inodes w !! h_ino h = Some ino
      /\ maxSizeCurSize f = Z.of_nat (length (i_data ino))
      /\ maxLinesCurLines f = Go.bytes_Count (i_data ino) Go.newline.

(** Calls of [LogWrite] one after the other, each with its time and its
    message, the errors dropped. *)
Fixpoint write_seq (entries : list (Go.Time * string)) (level : logLevel)
    (f : fileLogger) (w : world) : fileLogger * world :=
  match entries with
  | [] => (f, w)
  | (when, msg) :: rest =>
      let o := LogWrite when (IString msg) level f w in
      write_seq rest level (out_logger o) (out_world o)
  end.

Module Fixture.

Definition day (n : Z) : Go.Time := n * Go.ns_per_day.

Definition no_faults : syscall -> bool := fun _ => false.

(** A file of two lines, last written on 2021-01-01. *)
Definition two_lines : inode :=
  mkInode false (Go.bytes_of ("a" ++ Go.nl ++ "b" ++ Go.nl)) 420 (day 18628).

(** The clock reads 2021-01-02. *)
Definition w_app (fails : syscall -> bool) (now : Go.Time) : world :=
  mkWorld {["app.log" := 1%nat]} {[1%nat := two_lines]} 18 now fails [] 0.

(** A logger opened on that file on 2021-01-02, rotating every two lines. *)
Definition f_app : fileLogger :=
  mkFileLogger (Some (mkHandle "app.log" 1 false)) "app.log" true 2 0 true 7 ""
    "0644" 7 4 2 2 (day 18629) "app" ".log".


(** What the decoder makes of [{"filename":"app.log","permit":"0644"}] on
    the registered logger (level 7 for [LevelDebug]). *)
Definition f_cfg : fileLogger :=
  mkFileLogger None "app.log" true 10 (10 * 1024 * 1024) true 7 "" "0644" 7 0 0 0
    (-62135596800 * 1000000000) "" "".

Definition decode : string -> fileLogger -> option error * fileLogger :=
  fun _ _ => (None, f_cfg).

Definition no_levels : string -> option logLevel := fun _ => None.


(** The logger of [f_app] with a permission mask that is not octal. *)
Definition f_badperm : fileLogger :=
  mkFileLogger (Some (mkHandle "app.log" 1 false)) "app.log" true 2 0 true 7 ""
    "rw-r--r--" 7 4 2 2 (day 18629) "app" ".log".

(** A logger with [Append] off, open on the file. *)
Definition f_cfg_open : fileLogger :=
  mkFileLogger (Some (mkHandle "app.log" 1 false)) "app.log" false 2 10 true 7 ""
    "0644" 7 4 2 2 (day 18629) "app" ".log".

(** Only [file.Stat] fails. *)
Definition stat_fails : syscall -> bool :=
  fun s => match s with SysFstat _ => true | _ => false end.



End Fixture.

(** ** The models of the library functions on examples *)

Example fmt_03d_7 : Go.fmt_03d 7 = "007". Proof. reflexivity. Qed.
Example fmt_03d_999 : Go.fmt_03d 999 = "999". Proof. reflexivity. Qed.
Example format_epoch : Go.time_Format_date 0 = "1970-01-01". Proof. reflexivity. Qed.
Example format_2021 :
  Go.time_Format_date (18628 * Go.ns_per_day + 5) = "2021-01-01".
Proof. reflexivity. Qed.
Example format_zero_time :
  Go.time_Format_date (-62135596800 * 1000000000) = "0001-01-01".
Proof. reflexivity. Qed.
Example format_leap :
  Go.time_Format_date (19051 * Go.ns_per_day) = "2022-02-28".
Proof. reflexivity. Qed.
Example ext_app : Go.filepath_Ext "log/app.log" = ".log". Proof. reflexivity. Qed.
Example ext_none : Go.filepath_Ext "log.d/app" = "". Proof. reflexivity. Qed.
Example base_app : Go.filepath_Base "log/app.log" = "app.log". Proof. reflexivity. Qed.
Example dir_app : Go.filepath_Dir "log/app.log" = "log". Proof. reflexivity. Qed.
Example dir_rel : Go.filepath_Dir "app.log" = ".". Proof. reflexivity. Qed.
Example trim_app : Go.strings_TrimSuffix "log/app.log" ".log" = "log/app". Proof. reflexivity. Qed.
Example parse_0644 : Go.strconv_ParseInt8 "0644" = Some 420. Proof. reflexivity. Qed.
Example parse_bad : Go.strconv_ParseInt8 "rw-r--r--" = None. Proof. reflexivity. Qed.

(** ** Arithmetic of [int] *)

Lemma wrap64_exact z : Go.in_int z -> Go.wrap64 z = z.
Proof.
  unfold Go.in_int, Go.int_min, Go.int_max, Go.wrap64. intros Hz.
  rewrite Z.mod_small by lia. lia.
Qed.

Lemma int_add_exact a b : Go.in_int (a + b) -> Go.int_add a b = a + b.
Proof. apply wrap64_exact. Qed.


(** ** The rotation trigger *)

(** The trigger, on Go's own [+]. *)
Lemma needCreateFresh_go (f : fileLogger) (size day : Z) :
  needCreateFresh f size day = true <->
    (MaxLines f > 0 /\ maxLinesCurLines f >= MaxLines f)
    \/ (MaxSize f > 0 /\ Go.int_add (maxSizeCurSize f) size >= MaxSize f)
    \/ (Daily f = true /\ day <> dailyOpenDate f).
Proof.
  unfold needCreateFresh.
  rewrite !orb_true_iff, !andb_true_iff, negb_true_iff.
  rewrite !Z.gtb_gt, !Z.geb_ge, Z.eqb_neq. tauto.
Qed.

(** C4: the rotation trigger is a function of the counters, the limits and
    the incoming size and day alone, and it holds exactly when the line
    limit is set and reached, or the size limit is set and the size with the
    incoming message reaches it, or daily rotation is on and the day of the
    month differs from the one recorded at open time. The sum of the sizes
    is taken within the range of [int]. *)
Theorem needCreateFresh_iff (f : fileLogger) (size day : Z) :
  Go.in_int (maxSizeCurSize f + size) ->
  needCreateFresh f size day = true <->
    (MaxLines f > 0 /\ maxLinesCurLines f >= MaxLines f)
    \/ (MaxSize f > 0 /\ maxSizeCurSize f + size >= MaxSize f)
    \/ (Daily f = true /\ day <> dailyOpenDate f).
Proof.
  intros Hr. rewrite needCreateFresh_go, (int_add_exact _ _ Hr). tauto.
Qed.

Lemma needCreateFresh_iff_witness :
  Go.in_int (maxSizeCurSize Fixture.f_app + 6)
  /\ (needCreateFresh Fixture.f_app 6 2 = true <->
        (MaxLines Fixture.f_app > 0
         /\ maxLinesCurLines Fixture.f_app >= MaxLines Fixture.f_app)
        \/ (MaxSize Fixture.f_app > 0
            /\ maxSizeCurSize Fixture.f_app + 6 >= MaxSize Fixture.f_app)
        \/ (Daily Fixture.f_app = true /\ 2 <> dailyOpenDate Fixture.f_app)).
Proof.
  assert (H : Go.in_int (maxSizeCurSize Fixture.f_app + 6)).
  { unfold Go.in_int, Go.int_min, Go.int_max. simpl. lia. }
  split; [exact H | exact (needCreateFresh_iff Fixture.f_app 6 2 H)].
Defined.

(** ** Initialization with an empty configuration *)

(** C10: [Init] on the empty configuration string returns no error and
    leaves the logger and the file system as they were, whatever the decoder
    and the level table are: nothing is decoded, the filename is not
    checked, no file is opened. On the registered logger, which has no file
    handle and no filename, that is the registered state again. *)
Theorem Init_empty_config
    (json_Unmarshal : string -> fileLogger -> option error * fileLogger)
    (LevelMap : string -> option logLevel) (LevelDebug : logLevel)
    (f : fileLogger) (w : world) :
  Init json_Unmarshal LevelMap "" f w = (None, f, w)
  /\ Init json_Unmarshal LevelMap "" (registered LevelDebug) w
     = (None, registered LevelDebug, w)
  /\ fileWriter (registered LevelDebug) = None
  /\ Filename (registered LevelDebug) = "".
Proof. repeat split. Qed.

(** ** What the methods keep *)

Lemma same_settings_refl f : same_settings f f.
Proof. unfold same_settings; tauto. Qed.


Lemma newFile_settings f w : same_settings f (out_logger (newFile f w)).
Proof.
  unfold newFile, out_logger.
  destruct (createLogFile f w) as [[file|e] w1]; simpl; [|apply same_settings_refl].
  destruct (file_Stat file w1) as [info|e]; simpl; [|unfold same_settings; simpl; tauto].
  match goal with |- context [if ?b then _ else _] => destruct b end;
    [destruct (lines _ _) as [c [e|]]|]; unfold same_settings; simpl; tauto.
Qed.



(** ** The write path *)



(** [LogWrite] on a message that passes both filters: the rotation step,
    then the append, whose error is the one returned. *)
Lemma LogWrite_passed when msg level f w :
  level <= LogLevel f ->
  LogWrite when (IString msg) level f w =
    let r := rotate_if_due when (msg ++ Go.nl) f w in
    let a := file_Write (fileWriter (fst r)) (Go.bytes_of (msg ++ Go.nl)) (snd r) in
    match fst a with
    | None =>
        (None,
         set_counters (Go.int_add (maxLinesCurLines (fst r)) 1)
                      (Go.int_add (maxSizeCurSize (fst r)) (Go.len (msg ++ Go.nl))) (fst r),
         snd a)
    | Some err => (Some err, fst r, snd a)
    end.
Proof.
  intros Hl. unfold LogWrite.
  destruct (level >? LogLevel f) eqn:E; [apply Z.gtb_gt in E; lia|].
  destruct (rotate_if_due _ _ _ _) as [f1 w1]; simpl.
  destruct (file_Write _ _ _) as [[e|] w2]; reflexivity.
Qed.

Lemma rotate_if_due_not_due when msg f w :
  Append f = false \/ needCreateFresh f (Go.len msg) (Go.time_Day when) = false ->
  rotate_if_due when msg f w = (f, w).
Proof.
  unfold rotate_if_due. intros [H|H]; rewrite H; [done|]. destruct (Append f); done.
Qed.

Lemma string_length_append (s t : string) :
  String.length (s ++ t) = (String.length s + String.length t)%nat.
Proof. induction s as [|c s IH]; simpl; [reflexivity|now rewrite IH]. Qed.

Lemma len_line msg : Go.len (msg ++ Go.nl) = Go.len msg + 1.
Proof.
  unfold Go.len, Go.nl. rewrite string_length_append. simpl. lia.
Qed.


(** C9: for a message that passes both filters, an append that returns an
    error leaves the line and byte counters as the rotation step left them,
    and a successful append adds one line and the length of the message with
    its line terminator, with the addition of [int]; when no rotation is due, the counters before the
    append are those before the call. *)
Theorem LogWrite_counters when msg level f w :
  level <= LogLevel f ->
  let r := rotate_if_due when (msg ++ Go.nl) f w in
  let o := LogWrite when (IString msg) level f w in
  (out_err o <> None ->
     maxLinesCurLines (out_logger o) = maxLinesCurLines (fst r)
     /\ maxSizeCurSize (out_logger o) = maxSizeCurSize (fst r))
  /\ (out_err o = None ->
        maxLinesCurLines (out_logger o) = Go.int_add (maxLinesCurLines (fst r)) 1
        /\ maxSizeCurSize (out_logger o)
           = Go.int_add (maxSizeCurSize (fst r)) (Go.len msg + 1)
        /\ (Go.in_int (maxLinesCurLines (fst r) + 1) ->
            maxLinesCurLines (out_logger o) = maxLinesCurLines (fst r) + 1)
        /\ (Go.in_int (maxSizeCurSize (fst r) + (Go.len msg + 1)) ->
            maxSizeCurSize (out_logger o) = maxSizeCurSize (fst r) + (Go.len msg + 1)))
  /\ (Append f = false
      \/ needCreateFresh f (Go.len msg + 1) (Go.time_Day when) = false ->
      fst r = f).
Proof.
  intros Hl r o. subst o. rewrite (LogWrite_passed _ _ _ _ _ Hl). fold r.
  rewrite <- len_line. unfold out_err, out_logger.
  split; [|split].
  - destruct (file_Write _ _ _) as [[e|] w2]; simpl; intuition congruence.
  - destruct (file_Write _ _ _) as [[e|] w2]; simpl; [discriminate|].
    intros _. repeat split; intros Hr; by rewrite int_add_exact.
  - intros H. subst r. rewrite rotate_if_due_not_due; auto.
Qed.

(** ** Opening the log file *)

Lemma createLogFile_env f w : same_env w (snd (createLogFile f w)).
Proof.
  unfold createLogFile, os_OpenFile, os_Chmod, same_env.
  repeat case_match; simplify_eq; simpl; tauto.
Qed.

Lemma createLogFile_names_other f w p :
  p <> Filename f ->
  w_names (snd (createLogFile f w)) !! p = w_names w !! p.
Proof.
  intros Hp. unfold createLogFile, os_OpenFile, os_Chmod.
  repeat case_match; simplify_eq; simpl; try done; by rewrite lookup_insert_ne.
Qed.

Lemma createLogFile_names_kept f w i :
  w_names w !! Filename f = Some i ->
  w_names (snd (createLogFile f w)) = w_names w.
Proof.
  intros Hi. unfold createLogFile, os_OpenFile, os_Chmod.
  repeat case_match; simplify_eq; simpl; done.
Qed.

Lemma createLogFile_names_new f w (i : nat) :
  w_names w !! Filename f = None -> is_Some (w_inodes w !! i) ->
  w_names (snd (createLogFile f w)) !! Filename f <> Some i.
Proof.
  intros Hn Hi. unfold createLogFile, os_OpenFile, os_Chmod.
  assert (Hfresh : fresh (dom (w_inodes w)) <> i).
  { intros <-. apply elem_of_dom in Hi. by apply is_fresh in Hi. }
  repeat case_match; simplify_eq; simpl in *;
    rewrite ?lookup_insert_eq, ?Hn; congruence.
Qed.


Lemma createLogFile_existing f w perm i ino :
  Go.strconv_ParseInt8 (PermitMask f) = Some perm ->
  w_names w !! Filename f = Some i -> w_inodes w !! i = Some ino -> i_dir ino = false ->
  w_fails w (SysOpenFile (Filename f)) = false ->
  w_fails w (SysChmod (Filename f)) = false ->
  createLogFile f w =
    (Ok (mkHandle (Filename f) i false),
     set_fs (w_names w)
       (<[i := mkInode false (i_data ino) (perm_bits perm) (i_mtime ino)]> (w_inodes w)) w).
Proof.
  intros Hp Hn Hi Hd Ho Hc. unfold createLogFile, os_OpenFile, os_Chmod.
  rewrite Hp, Ho, Hn, Hi, Hd. simpl. rewrite Hc, Hn, Hi, Hd. reflexivity.
Qed.

Lemma newFile_world f w : out_world (newFile f w) = snd (createLogFile f w).
Proof.
  unfold newFile, out_world. destruct (createLogFile f w) as [[h|e] w1]; simpl; [|done].
  destruct (file_Stat h w1); simpl; [|done].
  case_match; [|done]. destruct (lines _ _) as [c [e|]]; done.
Qed.



Lemma RestartLogger_world f w :
  out_world (RestartLogger f w) = spawn_sweep (snd (createLogFile f w)).
Proof.
  unfold RestartLogger. rewrite <- newFile_world.
  destruct (newFile f w) as [[[e|] f1] w1]; reflexivity.
Qed.

Lemma RestartLogger_logger f w :
  out_logger (RestartLogger f w) = out_logger (newFile f w).
Proof. unfold RestartLogger. destruct (newFile f w) as [[[e|] f1] w1]; reflexivity. Qed.


(** ** Probing for a free archival name *)

Lemma fmt_03d_three_digits k : 1 <= k <= 999 -> String.length (Go.fmt_03d k) = 3%nat.
Proof.
  intros Hk.
  assert (H : forallb (fun n => Nat.eqb (String.length (Go.fmt_03d (Z.of_nat n))) 3)
                (List.seq 1 999) = true) by (vm_compute; reflexivity).
  rewrite forallb_forall in H. specialize (H (Z.to_nat k)).
  rewrite Z2Nat.id in H by lia. apply Nat.eqb_eq, H, in_seq. lia.
Qed.

Lemma probe_first_free f stamp w k :
  k <= 999 -> os_Lstat (archiveName f stamp k) w = None ->
  forall fuel num fName,
    num <= k -> Z.of_nat fuel >= k - num + 1 ->
    (forall j, num <= j < k -> is_Some (os_Lstat (archiveName f stamp j) w)) ->
    probe fuel f stamp w num fName None
    = (k + 1, archiveName f stamp k,
       Some (PathError "lstat" (archiveName f stamp k) NotExist)).
Proof.
  intros Hk Hfree. induction fuel as [|fuel IH]; intros num fName Hnum Hfuel Htaken.
  - simpl in Hfuel. lia.
  - cbn [probe]. destruct (num <=? 999) eqn:E; [|apply Z.leb_gt in E; lia].
    destruct (Z.eq_dec num k) as [->|Hne].
    + rewrite Hfree. destruct fuel; reflexivity.
    + destruct (Htaken num) as [info Hinfo]; [lia|]. rewrite Hinfo.
      apply IH; [lia|lia|]. intros j Hj. apply Htaken. lia.
Qed.

Lemma probe_all_taken f stamp w :
  forall fuel num fName,
    (forall j, num <= j <= 999 -> is_Some (os_Lstat (archiveName f stamp j) w)) ->
    snd (probe fuel f stamp w num fName None) = None.
Proof.
  induction fuel as [|fuel IH]; intros num fName Htaken; [reflexivity|].
  cbn [probe]. destruct (num <=? 999) eqn:E; [|reflexivity].
  apply Z.leb_le in E. destruct (Htaken num) as [info Hinfo]; [lia|]. rewrite Hinfo.
  apply IH. intros j Hj. apply Htaken. lia.
Qed.

Lemma probe_stamp t f w :
  (if negb (dailyOpenDate f =? Go.time_Day t)
   then probe 999 f (dailyOpenTime f) w 1 "" None
   else probe 999 f t w 1 "" None)
  = probe 999 f (rotation_stamp t f) w 1 "" None.
Proof. unfold rotation_stamp. destruct (negb _); reflexivity. Qed.

(** [createFreshFile] once the name is found: close, rename, reset the
    permissions of the archive, start again on a fresh file. *)
Lemma createFreshFile_rotate t f w perm k :
  Go.strconv_ParseInt8 (PermitMask f) = Some perm ->
  is_Some (os_Lstat (Filename f) w) ->
  1 <= k <= 999 -> first_free f (rotation_stamp t f) w k ->
  createFreshFile t f w =
    let fName := archiveName f (rotation_stamp t f) k in
    let f1 := set_fileWriter (file_Close (fileWriter f)) f in
    match os_Rename (Filename f) fName w with
    | (Some e, w1) => RestartLogger f1 (stderr_print (RepRename (Filename f) fName e) w1)
    | (None, w1) =>
        match os_Chmod fName perm w1 with
        | (Some e, w2) => (Some (fmt_Errorf "rotate" e), f1, w2)
        | (None, w2) => RestartLogger f1 w2
        end
    end.
Proof.
  intros Hp [info Hinfo] Hk [Hfree Htaken]. unfold createFreshFile.
  rewrite Hp, Hinfo, probe_stamp.
  rewrite (probe_first_free f (rotation_stamp t f) w k) by (auto; lia).
  reflexivity.
Qed.

Lemma createFreshFile_exhausted t f w perm :
  Go.strconv_ParseInt8 (PermitMask f) = Some perm ->
  is_Some (os_Lstat (Filename f) w) ->
  (forall j, 1 <= j <= 999 -> is_Some (os_Lstat (archiveName f (rotation_stamp t f) j) w)) ->
  createFreshFile t f w =
    (Some (errors_New ("cannot find free log number to rename " ++ Filename f)), f, w).
Proof.
  intros Hp [info Hinfo] Htaken. unfold createFreshFile.
  rewrite Hp, Hinfo, probe_stamp.
  pose proof (probe_all_taken f (rotation_stamp t f) w 999 1 "" Htaken) as H.
  destruct (probe _ _ _ _ _ _ _) as [[num fName] err]. simpl in H. subst err.
  reflexivity.
Qed.

(** ** The rotation *)

Lemma os_Chmod_names p perm w : w_names (snd (os_Chmod p perm w)) = w_names w.
Proof. unfold os_Chmod. repeat case_match; reflexivity. Qed.

Lemma os_Chmod_inodes p perm w (i : nat) :
  is_Some (w_inodes w !! i) -> is_Some (w_inodes (snd (os_Chmod p perm w)) !! i).
Proof.
  intros Hi. unfold os_Chmod. repeat case_match; simpl; try done.
  destruct (decide (n = i)) as [->|Hne];
    [rewrite lookup_insert_eq; eauto | by rewrite lookup_insert_ne].
Qed.

Lemma os_Chmod_env p perm w : same_env w (snd (os_Chmod p perm w)).
Proof. unfold os_Chmod, same_env. repeat case_match; simpl; tauto. Qed.

Lemma os_Rename_done old new w (i : nat) :
  w_names w !! old = Some i -> w_fails w (SysRename old new) = false ->
  os_Rename old new w
  = (None, set_fs (<[new := i]> (delete old (w_names w))) (w_inodes w) w).
Proof. intros Hn Hf. unfold os_Rename. by rewrite Hf, Hn. Qed.

Lemma os_Rename_fault old new w :
  w_fails w (SysRename old new) = true ->
  os_Rename old new w = (Some (LinkError "rename" old new Injected), w).
Proof. intros Hf. unfold os_Rename. by rewrite Hf. Qed.

(** After a rotation whose rename succeeds the archival name holds the
    file that was the active one, and the original name does not. *)
Lemma createFreshFile_archived t f w perm k (i : nat) :
  Go.strconv_ParseInt8 (PermitMask f) = Some perm ->
  w_names w !! Filename f = Some i -> is_Some (w_inodes w !! i) ->
  1 <= k <= 999 -> first_free f (rotation_stamp t f) w k ->
  w_fails w (SysRename (Filename f) (archiveName f (rotation_stamp t f) k)) = false ->
  let w' := out_world (createFreshFile t f w) in
  w_names w' !! archiveName f (rotation_stamp t f) k = Some i
  /\ w_names w' !! Filename f <> Some i.
Proof.
  intros Hp Hn Hi Hk Hff Hren.
  assert (Hl : is_Some (os_Lstat (Filename f) w)) by (unfold os_Lstat; by rewrite Hn).
  rewrite (createFreshFile_rotate t f w perm k Hp Hl Hk Hff).
  set (fName := archiveName f (rotation_stamp t f) k) in *.
  assert (Hne : fName <> Filename f).
  { intros Heq. destruct Hff as [Hfree _]. fold fName in Hfree.
    rewrite Heq in Hfree. rewrite Hfree in Hl. by destruct Hl. }
  cbv zeta. rewrite (os_Rename_done _ _ _ i Hn Hren).
  set (w1 := set_fs _ _ w).
  assert (H1 : w_names w1 !! fName = Some i) by (simpl; apply lookup_insert_eq).
  assert (H2 : w_names w1 !! Filename f = None).
  { simpl. rewrite lookup_insert_ne by done. apply lookup_delete_eq. }
  assert (H3 : is_Some (w_inodes w1 !! i)) by exact Hi.
  clearbody w1.
  pose proof (os_Chmod_names fName perm w1) as Hcn.
  pose proof (os_Chmod_inodes fName perm w1 i H3) as Hci.
  destruct (os_Chmod fName perm w1) as [[e|] w2]; cbn [snd] in Hcn, Hci.
  - unfold out_world; cbn [snd]. rewrite Hcn, H1, H2. split; congruence.
  - rewrite RestartLogger_world. cbn [spawn_sweep w_names]. split.
    + rewrite (createLogFile_names_other
                 (set_fileWriter (file_Close (fileWriter f)) f) w2 fName Hne).
      by rewrite Hcn.
    + apply (createLogFile_names_new
               (set_fileWriter (file_Close (fileWriter f)) f) w2 i); [|done].
      cbn [Filename set_fileWriter]. by rewrite Hcn.
Qed.

(** C3: when the active file exists at rotation time, the archival names
    with the sequence numbers 1, 2, ..., printed on three digits, are probed
    in order and the file is
    renamed to the one with the lowest number not on disk: after a rename
    that succeeds that name holds the former active file and the original
    name no longer does, and a rename that fails is reported with that name
    as its target. When all 999 names are on disk the Rotator returns the
    error "cannot find free log number to rename <filename>" and changes
    neither the logger nor the file system. *)
Theorem createFreshFile_lowest_free_number t f w perm (i : nat) :
  Go.strconv_ParseInt8 (PermitMask f) = Some perm ->
  w_names w !! Filename f = Some i -> is_Some (w_inodes w !! i) ->
  let stamp := rotation_stamp t f in
  let o := createFreshFile t f w in
  (forall k, 1 <= k <= 999 -> first_free f stamp w k ->
     String.length (Go.fmt_03d k) = 3%nat
     /\ (w_fails w (SysRename (Filename f) (archiveName f stamp k)) = false ->
        w_names (out_world o) !! archiveName f stamp k = Some i
        /\ w_names (out_world o) !! Filename f <> Some i)
     /\ (w_fails w (SysRename (Filename f) (archiveName f stamp k)) = true ->
           w_stderr (out_world o)
           = (w_stderr w
                ++ [RepRename (Filename f) (archiveName f stamp k)
                      (LinkError "rename" (Filename f) (archiveName f stamp k) Injected)])%list
           /\ w_names (out_world o) = w_names w))
  /\ ((forall j, 1 <= j <= 999 -> is_Some (os_Lstat (archiveName f stamp j) w)) ->
      o = (Some (errors_New ("cannot find free log number to rename " ++ Filename f)), f, w)).
Proof.
  intros Hp Hn Hi stamp o. subst stamp o.
  assert (Hl : is_Some (os_Lstat (Filename f) w)) by (unfold os_Lstat; by rewrite Hn).
  split.
  - intros k Hk Hff. split; [exact (fmt_03d_three_digits k Hk)|]. split; intros Hren.
    + exact (createFreshFile_archived t f w perm k i Hp Hn Hi Hk Hff Hren).
    + rewrite (createFreshFile_rotate t f w perm k Hp Hl Hk Hff).
      cbv zeta. rewrite (os_Rename_fault _ _ _ Hren).
      rewrite RestartLogger_world. cbn [spawn_sweep w_stderr w_names].
      set (r := RepRename _ _ _).
      set (f1 := set_fileWriter _ f).
      destruct (createLogFile_env f1 (stderr_print r w)) as [Hs _].
      split; [exact Hs|].
      exact (createLogFile_names_kept f1 (stderr_print r w) i Hn).
  - intros Htaken. exact (createFreshFile_exhausted t f w perm Hp Hl Htaken).
Qed.

Lemma createFreshFile_lowest_free_number_witness :
  let t := Fixture.day 18629 + 7 in
  let w := Fixture.w_app Fixture.no_faults (Fixture.day 18629 + 5) in
  Go.strconv_ParseInt8 (PermitMask Fixture.f_app) = Some 420
  /\ w_names w !! Filename Fixture.f_app = Some 1%nat
  /\ is_Some (w_inodes w !! 1%nat)
  /\ first_free Fixture.f_app (rotation_stamp t Fixture.f_app) w 1
  /\ w_names (out_world (createFreshFile t Fixture.f_app w)) !! "app.2021-01-02.001.log"
     = Some 1%nat.
Proof.
  intros t w.
  assert (Hp : Go.strconv_ParseInt8 (PermitMask Fixture.f_app) = Some 420) by reflexivity.
  assert (Hn : w_names w !! Filename Fixture.f_app = Some 1%nat) by reflexivity.
  assert (Hi : is_Some (w_inodes w !! 1%nat)) by (eexists; reflexivity).
  assert (Hk : 1 <= 1 <= 999) by lia.
  assert (Hff : first_free Fixture.f_app (rotation_stamp t Fixture.f_app) w 1).
  { split; [reflexivity|]. intros j Hj. lia. }
  refine (conj Hp (conj Hn (conj Hi (conj Hff _)))).
  exact (proj1 (proj1 (proj2 (proj1 (createFreshFile_lowest_free_number
                                       t Fixture.f_app w 420 1%nat Hp Hn Hi) 1 Hk Hff))
                   eq_refl)).
Defined.

(** C7: the date in the archival name is the date of the previous open time
    when the day of the month of the write differs from the one recorded at
    open time, and the date of the write itself when the two days of the
    month are the same (a rotation for size or line count); in each case
    the active file ends up under the name with that date and the lowest
    free sequence number. *)
Theorem archive_date_stamp t f w perm k (i : nat) :
  Go.strconv_ParseInt8 (PermitMask f) = Some perm ->
  w_names w !! Filename f = Some i -> is_Some (w_inodes w !! i) ->
  1 <= k <= 999 ->
  let w' := out_world (createFreshFile t f w) in
  let name stamp :=
    fileNameOnly f
    ++ ("." ++ Go.time_Format_date stamp ++ "." ++ Go.fmt_03d k ++ suffix f) in
  (dailyOpenDate f <> Go.time_Day t ->
   first_free f (dailyOpenTime f) w k ->
   w_fails w (SysRename (Filename f) (name (dailyOpenTime f))) = false ->
   w_names w' !! name (dailyOpenTime f) = Some i)
  /\ (dailyOpenDate f = Go.time_Day t ->
      first_free f t w k ->
      w_fails w (SysRename (Filename f) (name t)) = false ->
      w_names w' !! name t = Some i).
Proof.
  intros Hp Hn Hi Hk w' name. subst w'.
  change name with (fun stamp => archiveName f stamp k). cbv beta. clear name.
  pose proof (createFreshFile_archived t f w perm k i Hp Hn Hi Hk) as H.
  split; intros Hd Hff Hren.
  - assert (Hs : rotation_stamp t f = dailyOpenTime f).
    { unfold rotation_stamp. apply Z.eqb_neq in Hd. by rewrite Hd. }
    rewrite Hs in H. exact (proj1 (H Hff Hren)).
  - assert (Hs : rotation_stamp t f = t).
    { unfold rotation_stamp. apply Z.eqb_eq in Hd. by rewrite Hd. }
    rewrite Hs in H. exact (proj1 (H Hff Hren)).
Qed.

Lemma archive_date_stamp_witness :
  let w := Fixture.w_app Fixture.no_faults (Fixture.day 18660 + 5) in
  let next_day := Fixture.day 18630 + 7 in
  let next_month := Fixture.day 18660 + 7 in
  (Go.strconv_ParseInt8 (PermitMask Fixture.f_app) = Some 420
   /\ w_names w !! Filename Fixture.f_app = Some 1%nat
   /\ is_Some (w_inodes w !! 1%nat))
  /\ (dailyOpenDate Fixture.f_app <> Go.time_Day next_day
      /\ first_free Fixture.f_app (dailyOpenTime Fixture.f_app) w 1
      /\ w_names (out_world (createFreshFile next_day Fixture.f_app w))
           !! "app.2021-01-02.001.log" = Some 1%nat)
  /\ (dailyOpenDate Fixture.f_app = Go.time_Day next_month
      /\ first_free Fixture.f_app next_month w 1
      /\ w_names (out_world (createFreshFile next_month Fixture.f_app w))
           !! "app.2021-02-02.001.log" = Some 1%nat).
Proof.
  intros w next_day next_month.
  assert (Hp : Go.strconv_ParseInt8 (PermitMask Fixture.f_app) = Some 420) by reflexivity.
  assert (Hn : w_names w !! Filename Fixture.f_app = Some 1%nat) by reflexivity.
  assert (Hi : is_Some (w_inodes w !! 1%nat)) by (eexists; reflexivity).
  assert (Hk : 1 <= 1 <= 999) by lia.
  assert (Hd1 : dailyOpenDate Fixture.f_app <> Go.time_Day next_day) by (vm_compute; discriminate).
  assert (Hd2 : dailyOpenDate Fixture.f_app = Go.time_Day next_month) by reflexivity.
  assert (Hf1 : first_free Fixture.f_app (dailyOpenTime Fixture.f_app) w 1).
  { split; [reflexivity|]. intros j Hj. lia. }
  assert (Hf2 : first_free Fixture.f_app next_month w 1).
  { split; [reflexivity|]. intros j Hj. lia. }
  refine (conj (conj Hp (conj Hn Hi)) (conj (conj Hd1 (conj Hf1 _)) (conj Hd2 (conj Hf2 _)))).
  - exact (proj1 (archive_date_stamp next_day Fixture.f_app w 420 1 1%nat Hp Hn Hi Hk)
             Hd1 Hf1 eq_refl).
  - exact (proj2 (archive_date_stamp next_month Fixture.f_app w 420 1 1%nat Hp Hn Hi Hk)
             Hd2 Hf2 eq_refl).
Defined.

(** ** Failure of the rename *)




(** When the rename succeeds and resetting the permissions of the archive
    fails, [createFreshFile] returns at once: the handle is closed, no file
    is opened and none exists at the original filename. *)
Lemma rotation_archive_chmod_failure :
  let t := Fixture.day 18629 + 7 in
  let fails s := match s with SysChmod "app.2021-01-02.001.log" => true | _ => false end in
  let w := Fixture.w_app fails (Fixture.day 18629 + 5) in
  let o := createFreshFile t Fixture.f_app w in
  out_err o
  = Some (fmt_Errorf "rotate" (PathError "chmod" "app.2021-01-02.001.log" Injected))
  /\ handle_open (out_logger o) = false
  /\ os_Lstat "app.log" (out_world o) = None
  /\ w_sweeps (out_world o) = 0%nat.
Proof. vm_compute. repeat split. Qed.

(** ** Writing after shutdown *)

Lemma needCreateFresh_Destroy f size day :
  needCreateFresh (Destroy f) size day = needCreateFresh f size day.
Proof. reflexivity. Qed.





(** ** Counting the lines of the file at open time *)

Lemma bytes_Count_app a b c :
  Go.bytes_Count (a ++ b) c = Go.bytes_Count a c + Go.bytes_Count b c.
Proof. induction a as [|x a IH]; simpl; [reflexivity|rewrite IH; lia]. Qed.

Lemma buf_len_pos : (0 < buf_len)%nat.
Proof. unfold buf_len. lia. Qed.

Lemma lines_loop_step fuel path fd off count w :
  lines_loop (S fuel) path fd off count w =
    match file_Read path fd off buf_len w with
    | (c, Some io_EOF) => Some (count + Go.bytes_Count c Go.newline, None)
    | (c, Some e) => Some (count, Some e)
    | (c, None) =>
        lines_loop fuel path fd (off + length c)%nat (count + Go.bytes_Count c Go.newline) w
    end.
Proof. reflexivity. Qed.

(** The loop of [lines] ends before its fuel does, with the number of line
    separators of the file from the offset it started at. *)
Lemma lines_loop_enough path fd ino w :
  w_inodes w !! fd = Some ino -> i_dir ino = false ->
  (forall off, w_fails w (SysRead fd off) = false) ->
  forall fuel off count,
    (length (drop off (i_data ino)) < fuel)%nat ->
    lines_loop fuel path fd off count w
    = Some (count + Go.bytes_Count (drop off (i_data ino)) Go.newline, None).
Proof.
  intros Hi Hd Hr. induction fuel as [|fuel IH]; intros off count Hfuel; [lia|].
  rewrite lines_loop_step. unfold file_Read. rewrite Hr, Hi, Hd.
  pose proof buf_len_pos as Hpos.
  pose proof (take_drop buf_len (drop off (i_data ino))) as Hsplit.
  pose proof (length_take (drop off (i_data ino)) buf_len) as Hlen.
  destruct (take buf_len (drop off (i_data ino))) as [|c cs] eqn:Hchunk.
  - assert (Hnil : drop off (i_data ino) = []).
    { apply nil_length_inv. cbn [length] in Hlen. lia. }
    rewrite Hnil. reflexivity.
  - rewrite IH.
    + assert (Hc : Go.bytes_Count (drop off (i_data ino)) Go.newline
                   = Go.bytes_Count (c :: cs) Go.newline
                     + Go.bytes_Count (drop buf_len (drop off (i_data ino))) Go.newline)
        by (rewrite <- bytes_Count_app, Hsplit; reflexivity).
      assert (Hd' : drop (off + length (c :: cs)) (i_data ino)
                    = drop buf_len (drop off (i_data ino))).
      { rewrite drop_drop.
        destruct (decide (buf_len <= length (drop off (i_data ino)))%nat) as [Hle|Hgt].
        - rewrite Hlen. f_equal. lia.
        - rewrite length_drop in Hgt, Hlen.
          rewrite !drop_ge by lia. reflexivity. }
      rewrite Hd', Hc. f_equal. f_equal. lia.
    + rewrite length_drop in *. cbn [length] in *. lia.
Qed.

(** Whatever the reads return, the fuel [lines] gives its loop is enough. *)
Lemma lines_loop_total path fd w :
  forall fuel off count,
    (file_size fd w - off < fuel)%nat ->
    is_Some (lines_loop fuel path fd off count w).
Proof.
  induction fuel as [|fuel IH]; intros off count Hfuel; [lia|].
  rewrite lines_loop_step. unfold file_Read.
  destruct (w_fails w (SysRead fd off)); [eauto|].
  unfold file_size in *.
  destruct (w_inodes w !! fd) as [ino|] eqn:Hi; [|eauto].
  destruct (i_dir ino); [eauto|].
  pose proof (length_take (drop off (i_data ino)) buf_len) as Hlen.
  destruct (take buf_len (drop off (i_data ino))) as [|c cs] eqn:Hchunk; [eauto|].
  apply IH. rewrite length_drop in Hlen. cbn [length] in *. lia.
Qed.

Lemma lines_in_fuel f w fd :
  os_Open (Filename f) w = Ok fd ->
  is_Some (lines_loop (S (file_size fd w)) (Filename f) fd 0 0 w).
Proof. intros _. apply lines_loop_total. lia. Qed.

Lemma lines_count f w (i : nat) ino :
  w_names w !! Filename f = Some i -> w_inodes w !! i = Some ino -> i_dir ino = false ->
  (forall s, w_fails w s = false) ->
  lines f w = (Go.bytes_Count (i_data ino) Go.newline, None).
Proof.
  intros Hn Hi Hd Hf. unfold lines, os_Open. rewrite Hf, Hn, Hi.
  rewrite (lines_loop_enough (Filename f) i ino w Hi Hd (fun off => Hf _)).
  - reflexivity.
  - unfold file_size. rewrite Hi, drop_0. lia.
Qed.

Lemma newFile_seeds f w perm data :
  Go.strconv_ParseInt8 (PermitMask f) = Some perm ->
  (forall s, w_fails w s = false) ->
  log_file w (Filename f) data ->
  let o := newFile f w in
  out_err o = None /\ handle_open (out_logger o) = true
  /\ maxLinesCurLines (out_logger o) = Go.bytes_Count data Go.newline
  /\ maxSizeCurSize (out_logger o) = Z.of_nat (length data).
Proof.
  intros Hp Hf [[Hn ->]|(i & ino & Hn & Hi & Hd & <-)] o; subst o; unfold newFile.
  - unfold createLogFile, os_OpenFile, os_Chmod. rewrite Hp, Hf, Hn. cbn.
    rewrite Hf, !lookup_insert_eq. cbn. unfold file_Stat. cbn.
    rewrite Hf, lookup_insert_eq. cbn.
    change (Z.of_nat 0 >? 0) with false. cbn. repeat split.
  - rewrite (createLogFile_existing f w perm i ino Hp Hn Hi Hd (Hf _) (Hf _)).
    set (ino' := mkInode false (i_data ino) (perm_bits perm) (i_mtime ino)).
    set (w1 := set_fs _ _ w).
    assert (Hi1 : w_inodes w1 !! i = Some ino') by (cbn; apply lookup_insert_eq).
    unfold file_Stat. cbn [h_closed h_ino h_name]. cbn [negb].
    replace (w_fails w1 (SysFstat i)) with false by (symmetry; apply Hf).
    rewrite Hi1. cbn [i_data ino'].
    set (f2 := set_opened _ _ _).
    change (maxSizeCurSize f2) with (Z.of_nat (length (i_data ino))).
    destruct (Z.of_nat (length (i_data ino)) >? 0) eqn:Hsz.
    + rewrite (lines_count f2 w1 i ino' Hn Hi1 eq_refl Hf). cbn. repeat split.
    + rewrite Z.gtb_ltb in Hsz. apply Z.ltb_ge in Hsz.
      assert (Hnil : i_data ino = []) by (apply nil_length_inv; lia).
      rewrite Hnil. cbn. repeat split. by rewrite Hnil.
Qed.

Lemma bytes_Count_none l c : c ∉ l -> Go.bytes_Count l c = 0.
Proof.
  induction l as [|x l IH]; intros Hc; [reflexivity|]. simpl.
  apply not_elem_of_cons in Hc as [Hx Hl]. rewrite (IH Hl).
  destruct (Ascii.eqb_spec x c); [congruence|reflexivity].
Qed.

Lemma bytes_Count_terminated ls :
  (forall l, l ∈ ls -> Go.newline ∉ l) ->
  Go.bytes_Count (terminated ls) Go.newline = Z.of_nat (length ls).
Proof.
  unfold terminated. induction ls as [|l ls IH]; intros Hls; [reflexivity|].
  cbn [map concat length]. rewrite !bytes_Count_app, IH.
  - rewrite (bytes_Count_none l) by (apply Hls; left). simpl. lia.
  - intros l' Hl'. apply Hls. by right.
Qed.

Lemma len_nonempty s : s <> "" -> (Go.len s =? 0) = false.
Proof.
  intros Hs. destruct s as [|c s]; [done|]. unfold Go.len. simpl String.length.
  apply Z.eqb_neq. lia.
Qed.

(** [Init] on a configuration that decodes and names a file is [newFile]
    on a receiver with that filename and permission mask. *)
Lemma Init_decoded json_Unmarshal LevelMap cfg f f1 w :
  cfg <> "" -> json_Unmarshal cfg f = (None, f1) -> Filename f1 <> "" ->
  exists f5,
    Init json_Unmarshal LevelMap cfg f w = newFile f5 w
    /\ Filename f5 = Filename f1 /\ PermitMask f5 = PermitMask f1.
Proof.
  intros Hc Hu Hn. unfold Init. rewrite (len_nonempty _ Hc), Hu, (len_nonempty _ Hn).
  eexists. split; [reflexivity|].
  cbv zeta. destruct (String.eqb _ _); destruct (LevelMap _); split; reflexivity.
Qed.

(** C5: initialization on a file that already has content seeds the line
    count with the number of line terminators of the file, so [K] for a
    file of [K] newline-terminated lines; on an empty or a new file the line
    count starts at 0. The byte count is the size of the file, and the
    logger holds an open handle. This is so whether [Append] is set or not. *)
Theorem Init_seeds_lineCount
    (json_Unmarshal : string -> fileLogger -> option error * fileLogger)
    (LevelMap : string -> option logLevel)
    cfg f f1 w perm data :
  cfg <> "" -> json_Unmarshal cfg f = (None, f1) -> Filename f1 <> "" ->
  Go.strconv_ParseInt8 (PermitMask f1) = Some perm ->
  (forall s, w_fails w s = false) ->
  log_file w (Filename f1) data ->
  let o := Init json_Unmarshal LevelMap cfg f w in
  out_err o = None /\ handle_open (out_logger o) = true
  /\ maxLinesCurLines (out_logger o) = Go.bytes_Count data Go.newline
  /\ maxSizeCurSize (out_logger o) = Z.of_nat (length data)
  /\ (data = [] -> maxLinesCurLines (out_logger o) = 0)
  /\ (forall ls, (forall l, l ∈ ls -> Go.newline ∉ l) -> data = terminated ls ->
        maxLinesCurLines (out_logger o) = Z.of_nat (length ls)).
Proof.
  intros Hc Hu Hn Hp Hf Hfile o.
  destruct (Init_decoded json_Unmarshal LevelMap cfg f f1 w Hc Hu Hn)
    as (f5 & HI & Hfn & Hpm).
  subst o. rewrite HI. rewrite <- Hfn in Hfile. rewrite <- Hpm in Hp.
  destruct (newFile_seeds f5 w perm data Hp Hf Hfile) as (He & Ho & Hl & Hs).
  repeat split; try assumption.
  - intros ->. exact Hl.
  - intros ls Hls ->. rewrite Hl. by apply bytes_Count_terminated.
Qed.

Lemma Init_seeds_lineCount_witness :
  let cfg := "{}" in
  let w := Fixture.w_app Fixture.no_faults (Fixture.day 18629 + 5) in
  let data := terminated [[ "a"%char ]; [ "b"%char ]] in
  (cfg <> "" /\ Fixture.decode cfg (registered 7) = (None, Fixture.f_cfg)
   /\ Filename Fixture.f_cfg <> ""
   /\ Go.strconv_ParseInt8 (PermitMask Fixture.f_cfg) = Some 420
   /\ (forall s, w_fails w s = false)
   /\ log_file w (Filename Fixture.f_cfg) data)
  /\ maxLinesCurLines
       (out_logger (Init Fixture.decode Fixture.no_levels cfg (registered 7) w)) = 2.
Proof.
  intros cfg w data.
  assert (Hc : cfg <> "") by discriminate.
  assert (Hu : Fixture.decode cfg (registered 7) = (None, Fixture.f_cfg)) by reflexivity.
  assert (Hn : Filename Fixture.f_cfg <> "") by discriminate.
  assert (Hp : Go.strconv_ParseInt8 (PermitMask Fixture.f_cfg) = Some 420) by reflexivity.
  assert (Hf : forall s, w_fails w s = false) by reflexivity.
  assert (Hfile : log_file w (Filename Fixture.f_cfg) data).
  { right. exists 1%nat, Fixture.two_lines. repeat split. }
  refine (conj (conj Hc (conj Hu (conj Hn (conj Hp (conj Hf Hfile))))) _).
  exact (proj1 (proj2 (proj2
           (Init_seeds_lineCount Fixture.decode Fixture.no_levels cfg (registered 7)
              Fixture.f_cfg w 420 data Hc Hu Hn Hp Hf Hfile)))).
Defined.

(** ** The retention sweep *)

Lemma sweep_step_spec f w p :
  sweep_step f w p
  = if swept f w p then set_fs (delete p (w_names w)) (w_inodes w) w else w.
Proof.
  unfold sweep_step, swept, deleteOldLog_visit.
  destruct (os_Lstat p w) as [info|] eqn:Hl; [|reflexivity].
  fold (expired f info (w_now w)). fold (name_matches f p).
  destruct (expired f info (w_now w)); [|reflexivity].
  destruct (name_matches f p); [|reflexivity].
  unfold os_Remove. destruct (w_fails w (SysRemove p)); [reflexivity|].
  unfold os_Lstat in Hl. destruct (w_names w !! p); [reflexivity|discriminate].
Qed.

Lemma sweep_step_frame f w p :
  w_inodes (sweep_step f w p) = w_inodes w /\ w_now (sweep_step f w p) = w_now w
  /\ w_fails (sweep_step f w p) = w_fails w
  /\ forall q, w_names (sweep_step f w p) !! q
               = if bool_decide (q = p) && swept f w p then None else w_names w !! q.
Proof.
  rewrite sweep_step_spec. destruct (swept f w p) eqn:Hs; cbn.
  - repeat split. intros q. case_bool_decide as Hq; cbn.
    + subst q. apply lookup_delete_eq.
    + by apply lookup_delete_ne.
  - repeat split. intros q. by rewrite andb_false_r.
Qed.

Lemma swept_frame f w w' q :
  w_inodes w' = w_inodes w -> w_now w' = w_now w -> w_fails w' = w_fails w ->
  w_names w' !! q = w_names w !! q ->
  swept f w' q = swept f w q.
Proof.
  intros Hi Hn Hf Hq. unfold swept, os_Lstat. by rewrite Hi, Hn, Hf, Hq.
Qed.

Lemma sweep_fold f l :
  NoDup l ->
  forall w,
    let w' := foldl (sweep_step f) w l in
    w_inodes w' = w_inodes w /\ w_now w' = w_now w /\ w_fails w' = w_fails w
    /\ forall q, w_names w' !! q
                 = if bool_decide (q ∈ l) && swept f w q then None else w_names w !! q.
Proof.
  induction 1 as [|p l Hp Hnd IH]; intros w; cbn [foldl].
  - repeat split.
  - destruct (sweep_step_frame f w p) as (Hi1 & Hn1 & Hf1 & Hq1).
    destruct (IH (sweep_step f w p)) as (Hi & Hn & Hf & Hq).
    repeat split; try congruence.
    intros q. rewrite Hq, Hq1.
    destruct (decide (q = p)) as [->|Hne].
    + rewrite (bool_decide_eq_false_2 (p ∈ l)) by done.
      rewrite !bool_decide_eq_true_2 by (done || left). cbn.
      reflexivity.
    + rewrite (bool_decide_eq_false_2 (q = p)) by done. cbn [andb].
      rewrite (swept_frame f w (sweep_step f w p) q) by (auto; by rewrite Hq1,
        (bool_decide_eq_false_2 (q = p))).
      destruct (decide (q ∈ l)) as [Hin|Hnin].
      * rewrite !bool_decide_eq_true_2 by (done || by right). reflexivity.
      * rewrite !bool_decide_eq_false_2; [reflexivity| |done].
        intros [?|?]%elem_of_cons; done.
Qed.


Lemma walk_paths_NoDup dir w : NoDup (walk_paths dir w).
Proof. unfold walk_paths. apply NoDup_filter, NoDup_fst_map_to_list. Qed.

Lemma elem_of_walk_paths dir w q :
  q ∈ walk_paths dir w <-> under dir q = true /\ is_Some (w_names w !! q).
Proof.
  unfold walk_paths. rewrite list_elem_of_filter, list_elem_of_fmap. split.
  - intros [Hu [[q' i] [-> Hin]]]. split; [done|].
    apply elem_of_map_to_list in Hin. eauto.
  - intros [Hu [i Hi]]. split; [done|]. exists (q, i). split; [done|].
    by apply elem_of_map_to_list.
Qed.

Lemma deleteOldLog_walk f w :
  deleteOldLog f w
  = if root_exists (Go.filepath_Dir (Filename f)) w
    then foldl (sweep_step f) w (walk_paths (Go.filepath_Dir (Filename f)) w)
    else w.
Proof. unfold deleteOldLog, filepath_Walk. destruct (root_exists _ _); reflexivity. Qed.

(** What one sweep does to each directory entry. *)
Lemma deleteOldLog_names f w q :
  w_inodes (deleteOldLog f w) = w_inodes w
  /\ w_names (deleteOldLog f w) !! q
     = if root_exists (Go.filepath_Dir (Filename f)) w
          && under (Go.filepath_Dir (Filename f)) q && swept f w q
       then None else w_names w !! q.
Proof.
  rewrite deleteOldLog_walk. destruct (root_exists _ _); [|done].
  destruct (sweep_fold f _ (walk_paths_NoDup (Go.filepath_Dir (Filename f)) w) w)
    as (Hi & _ & _ & Hq).
  split; [exact Hi|]. rewrite Hq. cbn [andb].
  destruct (swept f w q) eqn:Hs; [|by rewrite !andb_false_r].
  rewrite !andb_true_r.
  assert (Hsome : is_Some (w_names w !! q)).
  { unfold swept, os_Lstat in Hs. destruct (w_names w !! q); [eauto|discriminate]. }
  destruct (under _ q) eqn:Hu.
  - rewrite bool_decide_eq_true_2; [done|]. by apply elem_of_walk_paths.
  - rewrite bool_decide_eq_false_2; [done|].
    intros [Hu' _]%elem_of_walk_paths. congruence.
Qed.






(** ** The write path on concrete states *)

Lemma LogWrite_counters_witness :
  let when := Fixture.day 18629 + 7 in
  let f := set_counters 1 2 Fixture.f_app in
  let w := Fixture.w_app Fixture.no_faults (Fixture.day 18629 + 5) in
  let o := LogWrite when (IString "hello") 3 f w in
  3 <= LogLevel f
  /\ out_err o = None
  /\ maxLinesCurLines (out_logger o) = 2
  /\ maxSizeCurSize (out_logger o) = 8.
Proof.
  intros when f w o.
  assert (Hl : 3 <= LogLevel f) by (vm_compute; discriminate).
  assert (He : out_err o = None) by reflexivity.
  destruct (proj1 (proj2 (LogWrite_counters when "hello" 3 f w Hl)) He) as (H1 & H2 & _).
  exact (conj Hl (conj He (conj H1 H2))).
Defined.


(** ** Opening a file that is not there *)

Lemma createLogFile_created f w perm :
  Go.strconv_ParseInt8 (PermitMask f) = Some perm ->
  w_names w !! Filename f = None ->
  w_fails w (SysOpenFile (Filename f)) = false ->
  w_fails w (SysChmod (Filename f)) = false ->
  createLogFile f w =
    let j := fresh (dom (w_inodes w)) in
    (Ok (mkHandle (Filename f) j false),
     set_fs (<[Filename f := j]> (w_names w))
       (<[j := mkInode false [] (perm_bits perm) (w_now w)]> (w_inodes w)) w).
Proof.
  intros Hp Hn Ho Hc. unfold createLogFile, os_OpenFile, os_Chmod.
  rewrite Hp, Ho, Hn. cbn. rewrite Hc, !lookup_insert_eq. cbn.
  by rewrite insert_insert_eq.
Qed.

Lemma newFile_created f w perm :
  Go.strconv_ParseInt8 (PermitMask f) = Some perm ->
  w_names w !! Filename f = None ->
  w_fails w (SysOpenFile (Filename f)) = false ->
  w_fails w (SysChmod (Filename f)) = false ->
  w_fails w (SysFstat (fresh (dom (w_inodes w)))) = false ->
  newFile f w =
    let j := fresh (dom (w_inodes w)) in
    (None,
     set_opened 0 (w_now w) (set_fileWriter (Some (mkHandle (Filename f) j false)) f),
     set_fs (<[Filename f := j]> (w_names w))
       (<[j := mkInode false [] (perm_bits perm) (w_now w)]> (w_inodes w)) w).
Proof.
  intros Hp Hn Ho Hc Hs. unfold newFile.
  rewrite (createLogFile_created f w perm Hp Hn Ho Hc). cbv zeta.
  unfold file_Stat. cbn [h_closed h_ino h_name set_fs w_fails w_inodes].
  rewrite Hs, lookup_insert_eq. reflexivity.
Qed.

Lemma file_Write_done h b w ino :
  h_closed h = false -> w_fails w (SysWrite (h_ino h)) = false ->
  w_inodes w !! h_ino h = Some ino ->
  file_Write (Some h) b w
  = (None,
     set_fs (w_names w)
       (<[h_ino h := mkInode (i_dir ino) (i_data ino ++ b) (i_mode ino) (w_now w)]> (w_inodes w))
       w).
Proof. intros Hc Hf Hi. unfold file_Write. by rewrite Hc, Hf, Hi. Qed.

(** A rotation in which no system call fails. *)
Lemma createFreshFile_done t f w perm k (i : nat) ino :
  Go.strconv_ParseInt8 (PermitMask f) = Some perm ->
  w_names w !! Filename f = Some i -> w_inodes w !! i = Some ino ->
  1 <= k <= 999 -> first_free f (rotation_stamp t f) w k ->
  (forall s, w_fails w s = false) ->
  createFreshFile t f w =
    let fName := archiveName f (rotation_stamp t f) k in
    let inodes2 :=
      <[i := mkInode (i_dir ino) (i_data ino) (perm_bits perm) (i_mtime ino)]> (w_inodes w) in
    let j := fresh (dom inodes2) in
    (None,
     set_opened 0 (w_now w) (set_fileWriter (Some (mkHandle (Filename f) j false)) f),
     spawn_sweep
       (set_fs (<[Filename f := j]> (<[fName := i]> (delete (Filename f) (w_names w))))
          (<[j := mkInode false [] (perm_bits perm) (w_now w)]> inodes2) w)).
Proof.
  intros Hp Hn Hi Hk Hff Hf.
  assert (Hl : is_Some (os_Lstat (Filename f) w)) by (unfold os_Lstat; rewrite Hn, Hi; eauto).
  rewrite (createFreshFile_rotate t f w perm k Hp Hl Hk Hff).
  set (fName := archiveName f (rotation_stamp t f) k).
  assert (Hne : fName <> Filename f).
  { intros Heq. destruct Hff as [Hfree _]. fold fName in Hfree.
    rewrite Heq in Hfree. rewrite Hfree in Hl. by destruct Hl. }
  cbv zeta. rewrite (os_Rename_done _ _ _ i Hn (Hf _)).
  unfold os_Chmod. cbn [set_fs w_fails w_names w_inodes].
  rewrite Hf, lookup_insert_eq, Hi.
  set (f1 := set_fileWriter (file_Close (fileWriter f)) f).
  set (w2 := set_fs _ _ _).
  unfold RestartLogger.
  rewrite (newFile_created f1 w2 perm Hp); try apply Hf.
  - reflexivity.
  - cbn. rewrite lookup_insert_ne by done. apply lookup_delete_eq.
Qed.

Lemma bytes_of_app s t : Go.bytes_of (s ++ t) = (Go.bytes_of s ++ Go.bytes_of t)%list.
Proof. unfold Go.bytes_of. induction s as [|c s IH]; simpl; [reflexivity|by rewrite IH]. Qed.

Lemma bytes_of_line msg :
  Go.bytes_of (msg ++ Go.nl) = (Go.bytes_of msg ++ [Go.newline])%list.
Proof. by rewrite bytes_of_app. Qed.

(** X1: a rotation in which no system call fails: the archival name holds the
    former active file, content and modification time untouched, with the
    configured permission bits; the original name holds a new empty file
    with those bits; no other directory entry changes; the logger holds an
    open handle on the new file with both counters at zero and the open
    time set to now; one sweep is started and nothing is printed. *)
Theorem createFreshFile_archives_and_restarts t f w perm k (i : nat) ino :
  Go.strconv_ParseInt8 (PermitMask f) = Some perm ->
  w_names w !! Filename f = Some i -> w_inodes w !! i = Some ino ->
  1 <= k <= 999 -> first_free f (rotation_stamp t f) w k ->
  (forall s, w_fails w s = false) ->
  let fName := archiveName f (rotation_stamp t f) k in
  let o := createFreshFile t f w in
  out_err o = None
  /\ handle_open (out_logger o) = true
  /\ maxLinesCurLines (out_logger o) = 0 /\ maxSizeCurSize (out_logger o) = 0
  /\ dailyOpenTime (out_logger o) = w_now w
  /\ os_Lstat fName (out_world o)
     = Some (mkInode (i_dir ino) (i_data ino) (perm_bits perm) (i_mtime ino))
  /\ os_Lstat (Filename f) (out_world o) = Some (mkInode false [] (perm_bits perm) (w_now w))
  /\ (forall p, p <> Filename f -> p <> fName ->
        w_names (out_world o) !! p = w_names w !! p)
  /\ w_sweeps (out_world o) = S (w_sweeps w)
  /\ w_stderr (out_world o) = w_stderr w.
Proof.
  intros Hp Hn Hi Hk Hff Hf fName o. subst o.
  rewrite (createFreshFile_done t f w perm k i ino Hp Hn Hi Hk Hff Hf).
  cbv zeta. fold fName.
  assert (Hne : fName <> Filename f).
  { intros Heq. destruct Hff as [Hfree _]. fold fName in Hfree.
    rewrite Heq in Hfree. unfold os_Lstat in Hfree. by rewrite Hn, Hi in Hfree. }
  set (ino2 := mkInode (i_dir ino) (i_data ino) (perm_bits perm) (i_mtime ino)).
  set (inodes2 := <[i := ino2]> (w_inodes w)).
  assert (Hj : fresh (dom inodes2) <> i).
  { intros Heq. apply (is_fresh (dom inodes2)). rewrite Heq.
    apply elem_of_dom. subst inodes2. rewrite lookup_insert_eq. eauto. }
  unfold out_err, out_logger, out_world, handle_open, os_Lstat. cbn.
  repeat split.
  - rewrite lookup_insert_ne by done. rewrite lookup_insert_eq.
    rewrite lookup_insert_ne by done. subst inodes2. by rewrite lookup_insert_eq.
  - by rewrite !lookup_insert_eq.
  - intros p Hp1 Hp2. rewrite !lookup_insert_ne by done. by apply lookup_delete_ne.
Qed.


(** X3: a write that finds a rotation due, when no system call fails and a
    sequence number is free, loses nothing: the archive holds exactly what
    the active file held, the new active file holds exactly the message
    with its line terminator, and the counters are 1 line and the length
    of that line. *)
Theorem LogWrite_rotates_then_appends when msg level f w perm k (i : nat) ino :
  level <= LogLevel f -> Append f = true ->
  needCreateFresh f (Go.len msg + 1) (Go.time_Day when) = true ->
  Go.len msg < Go.int_max ->
  Go.strconv_ParseInt8 (PermitMask f) = Some perm ->
  w_names w !! Filename f = Some i -> w_inodes w !! i = Some ino ->
  1 <= k <= 999 -> first_free f (rotation_stamp when f) w k ->
  (forall s, w_fails w s = false) ->
  let o := LogWrite when (IString msg) level f w in
  out_err o = None
  /\ (i_data <$> os_Lstat (archiveName f (rotation_stamp when f) k) (out_world o))
     = Some (i_data ino)
  /\ (i_data <$> os_Lstat (Filename f) (out_world o))
     = Some (Go.bytes_of msg ++ [Go.newline])%list
  /\ maxLinesCurLines (out_logger o) = 1
  /\ maxSizeCurSize (out_logger o) = Go.len msg + 1
  /\ w_stderr (out_world o) = w_stderr w.
Proof.
  intros Hl Ha Hdue Hmsg Hp Hn Hi Hk Hff Hf o. subst o.
  rewrite (LogWrite_passed _ _ _ _ _ Hl). unfold rotate_if_due.
  rewrite Ha, len_line, Hdue.
  rewrite (createFreshFile_done when f w perm k i ino Hp Hn Hi Hk Hff Hf).
  cbv zeta. cbn [fst snd fileWriter set_opened set_fileWriter].
  set (fName := archiveName f (rotation_stamp when f) k).
  assert (Hne : fName <> Filename f).
  { intros Heq. destruct Hff as [Hfree _]. fold fName in Hfree.
    rewrite Heq in Hfree. unfold os_Lstat in Hfree. by rewrite Hn, Hi in Hfree. }
  set (ino2 := mkInode (i_dir ino) (i_data ino) (perm_bits perm) (i_mtime ino)).
  set (inodes2 := <[i := ino2]> (w_inodes w)).
  set (j := fresh (dom inodes2)).
  assert (Hj : j <> i).
  { intros Heq. apply (is_fresh (dom inodes2)). fold j. rewrite Heq.
    apply elem_of_dom. subst inodes2. rewrite lookup_insert_eq. eauto. }
  set (new := mkInode false [] (perm_bits perm) (w_now w)).
  set (w3 := spawn_sweep _).
  assert (Hw : w_inodes w3 !! j = Some new) by (subst w3; cbn; apply lookup_insert_eq).
  rewrite (file_Write_done (mkHandle (Filename f) j false) _ w3 new eq_refl (Hf _) Hw).
  assert (Hlen : Go.int_add 0 (Go.len msg + 1) = Go.len msg + 1).
  { rewrite int_add_exact; [lia|].
    unfold Go.in_int, Go.int_min, Go.int_max, Go.len in *. lia. }
  unfold out_err, out_logger, out_world, os_Lstat.
  cbn [fst snd set_counters maxLinesCurLines maxSizeCurSize set_opened set_fs w_names
       w_inodes w_stderr h_ino].
  rewrite Hlen, bytes_of_line. subst w3. cbn [spawn_sweep set_fs w_names w_inodes w_stderr].
  repeat split.
  - rewrite lookup_insert_ne by done. rewrite lookup_insert_eq.
    rewrite !lookup_insert_ne by done. subst inodes2. by rewrite lookup_insert_eq.
  - by rewrite !lookup_insert_eq.
Qed.

(** X4: a rotation that cannot start (the permission mask does not parse, or
    all 999 archival names are taken) leaves the file where it is: the
    write prints the rotation error on the sink and appends the message to
    the current file all the same, whose directory entries are unchanged. *)
Theorem LogWrite_failed_rotation_still_appends when msg level f w h ino :
  level <= LogLevel f -> Append f = true ->
  needCreateFresh f (Go.len msg + 1) (Go.time_Day when) = true ->
  Go.strconv_ParseInt8 (PermitMask f) = None
  \/ (is_Some (Go.strconv_ParseInt8 (PermitMask f))
      /\ is_Some (os_Lstat (Filename f) w)
      /\ forall j, 1 <= j <= 999 ->
           is_Some (os_Lstat (archiveName f (rotation_stamp when f) j) w)) ->
  fileWriter f = Some h -> h_closed h = false ->
  w_inodes w !! h_ino h = Some ino -> w_fails w (SysWrite (h_ino h)) = false ->
  let o := LogWrite when (IString msg) level f w in
  out_err o = None
  /\ w_names (out_world o) = w_names w
  /\ (i_data <$> w_inodes (out_world o) !! h_ino h)
     = Some (i_data ino ++ Go.bytes_of msg ++ [Go.newline])%list
  /\ fileWriter (out_logger o) = Some h
  /\ w_sweeps (out_world o) = w_sweeps w
  /\ exists e,
       out_err (createFreshFile when f w) = Some e
       /\ w_stderr (out_world o) = (w_stderr w ++ [RepCreateFresh (Filename f) e])%list.
Proof.
  intros Hl Ha Hdue Hwhy Hfw Hc Hi Hf o. subst o.
  assert (Hcf : exists e, createFreshFile when f w = (Some e, f, w)).
  { destruct Hwhy as [Hp|([perm Hp] & Hls & Htaken)].
    - eexists. unfold createFreshFile. rewrite Hp. reflexivity.
    - eexists. exact (createFreshFile_exhausted when f w perm Hp Hls Htaken). }
  destruct Hcf as [e He].
  rewrite (LogWrite_passed _ _ _ _ _ Hl). unfold rotate_if_due.
  rewrite Ha, len_line, Hdue, He. cbv zeta. cbn [fst snd]. rewrite Hfw.
  set (w1 := stderr_print _ w).
  rewrite (file_Write_done h _ w1 ino Hc Hf Hi).
  unfold out_err, out_logger, out_world. cbn. rewrite bytes_of_line, lookup_insert_eq.
  repeat split; [exact Hfw|]. exists e. split; reflexivity.
Qed.

(** X5: with [Append] on and the line limit set, after a write that
    finds the active file in place, a free sequence number and no failing
    system call, the line counter is between 0 and the limit again, if it
    was before. *)
Theorem LogWrite_keeps_line_limit when msg level f w perm k (i : nat) ino :
  level <= LogLevel f -> Append f = true ->
  0 < MaxLines f <= Go.int_max -> 0 <= maxLinesCurLines f <= MaxLines f ->
  Go.strconv_ParseInt8 (PermitMask f) = Some perm ->
  w_names w !! Filename f = Some i -> w_inodes w !! i = Some ino ->
  1 <= k <= 999 -> first_free f (rotation_stamp when f) w k ->
  (forall s, w_fails w s = false) ->
  let f' := out_logger (LogWrite when (IString msg) level f w) in
  MaxLines f' = MaxLines f /\ 0 <= maxLinesCurLines f' <= MaxLines f.
Proof.
  intros Hl Ha Hmax Hcur Hp Hn Hi Hk Hff Hf f'. subst f'.
  rewrite (LogWrite_passed _ _ _ _ _ Hl). unfold rotate_if_due.
  rewrite Ha, len_line.
  destruct (needCreateFresh f (Go.len msg + 1) (Go.time_Day when)) eqn:Hdue.
  - rewrite (createFreshFile_done when f w perm k i ino Hp Hn Hi Hk Hff Hf).
    cbv zeta. cbn [fst snd].
    destruct (file_Write _ _ _) as [[e|] w2]; unfold out_logger; cbn;
      (split; [reflexivity|]); [lia|].
    change (Go.int_add 0 1) with 1. lia.
  - assert (Hlt : maxLinesCurLines f < MaxLines f).
    { apply not_true_iff_false in Hdue. rewrite needCreateFresh_go in Hdue. lia. }
    cbv zeta. cbn [fst snd].
    destruct (file_Write _ _ _) as [[e|] w2]; unfold out_logger; cbn;
      (split; [reflexivity|]); [lia|].
    rewrite int_add_exact; [lia|]. unfold Go.in_int, Go.int_min, Go.int_max in *. lia.
Qed.

(** X6: when no rotation is due, or [Append] is off, a write touches nothing
    but the file it appends to: no directory entry changes, nothing is
    printed on the sink, no sweep is started, every other inode is as it
    was and the logger keeps its handle, whether the append succeeds or
    not. *)
Theorem LogWrite_without_rotation_frame when msgText level f w :
  (forall msg, msgText = IString msg ->
     Append f = false \/ needCreateFresh f (Go.len msg + 1) (Go.time_Day when) = false) ->
  let o := LogWrite when msgText level f w in
  w_names (out_world o) = w_names w
  /\ w_stderr (out_world o) = w_stderr w
  /\ w_sweeps (out_world o) = w_sweeps w
  /\ fileWriter (out_logger o) = fileWriter f
  /\ same_settings f (out_logger o)
  /\ forall (i : nat),
       (forall h, fileWriter f = Some h -> h_ino h <> i) ->
       w_inodes (out_world o) !! i = w_inodes w !! i.
Proof.
  intros Hnd o. subst o.
  assert (Hskip : forall f0 w0, f0 = f -> w0 = w ->
            w_names w0 = w_names w /\ w_stderr w0 = w_stderr w
            /\ w_sweeps w0 = w_sweeps w /\ fileWriter f0 = fileWriter f
            /\ same_settings f f0
            /\ forall (i : nat), (forall h, fileWriter f = Some h -> h_ino h <> i) ->
                 w_inodes w0 !! i = w_inodes w !! i).
  { intros f0 w0 -> ->. repeat split. }
  destruct msgText as [msg|]; [|by apply Hskip].
  unfold LogWrite. destruct (level >? LogLevel f); [by apply Hskip|].
  rewrite rotate_if_due_not_due by (rewrite len_line; by apply Hnd).
  unfold file_Write.
  destruct (fileWriter f) as [h|] eqn:Hfw; [|by apply Hskip].
  destruct (h_closed h); [by apply Hskip|].
  destruct (w_fails w _); [by apply Hskip|].
  destruct (w_inodes w !! h_ino h) as [ino|]; [|by apply Hskip].
  unfold out_world, out_logger. cbn. repeat split; [exact Hfw|].
  intros i Hi. apply lookup_insert_ne. by apply Hi.
Qed.

(** X7: a write for which no rotation is due, on an open handle and with no
    write failure, appends exactly the message and one line terminator to
    the file behind the handle and stamps it with the current time. The
    line counter counts writes: if it was the number of line terminators of
    the file before, it is short afterwards by the number of line
    terminators inside the message. *)
Theorem LogWrite_appends_line when msg level f w h ino :
  level <= LogLevel f ->
  Append f = false \/ needCreateFresh f (Go.len msg + 1) (Go.time_Day when) = false ->
  fileWriter f = Some h -> h_closed h = false ->
  w_inodes w !! h_ino h = Some ino -> w_fails w (SysWrite (h_ino h)) = false ->
  let o := LogWrite when (IString msg) level f w in
  out_err o = None
  /\ w_inodes (out_world o) !! h_ino h
     = Some (mkInode (i_dir ino) (i_data ino ++ Go.bytes_of msg ++ [Go.newline])
               (i_mode ino) (w_now w))
  /\ (maxLinesCurLines f = Go.bytes_Count (i_data ino) Go.newline ->
      Go.in_int (maxLinesCurLines f + 1) ->
      Go.bytes_Count (i_data ino ++ Go.bytes_of msg ++ [Go.newline]) Go.newline
      = maxLinesCurLines (out_logger o) + Go.bytes_Count (Go.bytes_of msg) Go.newline).
Proof.
  intros Hl Hnd Hfw Hc Hi Hf o. subst o.
  rewrite (LogWrite_passed _ _ _ _ _ Hl).
  rewrite rotate_if_due_not_due by (rewrite len_line; exact Hnd).
  cbv zeta. cbn [fst snd]. rewrite Hfw, (file_Write_done h _ w ino Hc Hf Hi).
  unfold out_err, out_world. cbn. rewrite bytes_of_line, lookup_insert_eq.
  unfold out_logger. cbn [fst snd set_counters maxLinesCurLines].
  repeat split. intros Hcnt Hr. rewrite !bytes_Count_app, int_add_exact by done.
  change (Go.bytes_Count [Go.newline] Go.newline) with 1. lia.
Qed.

(** ** Invariants of the write path *)

Lemma newFile_open_date f w :
  dailyOpenDate f = Go.time_Day (dailyOpenTime f) ->
  dailyOpenDate (out_logger (newFile f w))
  = Go.time_Day (dailyOpenTime (out_logger (newFile f w))).
Proof.
  intros Hinv. unfold newFile, out_logger.
  destruct (createLogFile f w) as [[h|e] w1]; cbn; [|exact Hinv].
  destruct (file_Stat h w1); cbn; [|exact Hinv].
  case_match; [|reflexivity]. destruct (lines _ _) as [c [e|]]; reflexivity.
Qed.

Lemma createFreshFile_open_date t f w :
  dailyOpenDate f = Go.time_Day (dailyOpenTime f) ->
  dailyOpenDate (out_logger (createFreshFile t f w))
  = Go.time_Day (dailyOpenTime (out_logger (createFreshFile t f w))).
Proof.
  intros Hinv. unfold createFreshFile.
  destruct (Go.strconv_ParseInt8 _); [|exact Hinv].
  destruct (os_Lstat _ _); [|rewrite RestartLogger_logger; by apply newFile_open_date].
  destruct (if negb _ then _ else _) as [[num fName] [e0|]]; [|exact Hinv].
  destruct (os_Rename _ _ _) as [[e|] w1].
  - rewrite RestartLogger_logger. by apply newFile_open_date.
  - destruct (os_Chmod _ _ _) as [[e|] w2]; [exact Hinv|].
    rewrite RestartLogger_logger. by apply newFile_open_date.
Qed.

(** X8: the recorded day of the month is the day of the recorded open time:
    every write keeps that, whatever fails. *)
Theorem LogWrite_keeps_open_date when msgText level f w :
  dailyOpenDate f = Go.time_Day (dailyOpenTime f) ->
  let f' := out_logger (LogWrite when msgText level f w) in
  dailyOpenDate f' = Go.time_Day (dailyOpenTime f').
Proof.
  intros Hinv f'. subst f'. unfold LogWrite.
  destruct msgText as [msg|]; [|exact Hinv].
  destruct (level >? LogLevel f); [exact Hinv|].
  assert (Hr : dailyOpenDate (fst (rotate_if_due when (msg ++ Go.nl) f w))
               = Go.time_Day (dailyOpenTime (fst (rotate_if_due when (msg ++ Go.nl) f w)))).
  { unfold rotate_if_due. destruct (Append f); [|exact Hinv].
    destruct (needCreateFresh _ _ _); [|exact Hinv].
    pose proof (createFreshFile_open_date when f w Hinv) as H.
    destruct (createFreshFile when f w) as [[[e|] f1] w1]; exact H. }
  destruct (rotate_if_due _ _ _ _) as [f1 w1]. cbn [fst] in Hr.
  destruct (file_Write _ _ _) as [[e|] w2]; exact Hr.
Qed.

Lemma createLogFile_no_faults f w :
  (forall s, w_fails w s = false) ->
  match createLogFile f w with
  | (Err _, w1) => w1 = w
  | (Ok h, w1) =>
      exists ino',
        h_closed h = false
        /\ w_names w1 !! Filename f = Some (h_ino h)
        /\ w_inodes w1 !! h_ino h = Some ino' /\ i_dir ino' = false
        /\ (forall s, w_fails w1 s = false)
  end.
Proof.
  intros Hf. unfold createLogFile.
  destruct (Go.strconv_ParseInt8 _) as [perm|]; [|reflexivity].
  unfold os_OpenFile. rewrite Hf.
  destruct (w_names w !! Filename f) as [i|] eqn:Hn.
  - destruct (w_inodes w !! i) as [ino|] eqn:Hi; [|reflexivity].
    destruct (i_dir ino) eqn:Hd; [reflexivity|].
    unfold os_Chmod. rewrite Hf, Hn, Hi. eexists. cbn.
    rewrite lookup_insert_eq. repeat split; auto.
  - unfold os_Chmod. cbn. rewrite Hf, !lookup_insert_eq. eexists. cbn.
    rewrite !lookup_insert_eq. repeat split; auto.
Qed.

Lemma newFile_counters_match f w :
  (forall s, w_fails w s = false) -> counters_match f w ->
  counters_match (out_logger (newFile f w)) (out_world (newFile f w)).
Proof.
  intros Hf Hm. pose proof (createLogFile_no_faults f w Hf) as Hc. unfold newFile.
  destruct (createLogFile f w) as [[h|e] w1]; [|subst w1; exact Hm].
  destruct Hc as (ino' & Hcl & Hn & Hi & Hd & Hf1).
  unfold file_Stat. rewrite Hcl, Hf1, Hi.
  set (f2 := set_opened _ _ _).
  change (maxSizeCurSize f2) with (Z.of_nat (length (i_data ino'))).
  destruct (Z.of_nat (length (i_data ino')) >? 0) eqn:Hsz.
  - rewrite (lines_count f2 w1 (h_ino h) ino' Hn Hi Hd Hf1).
    unfold out_logger, out_world. cbn [fst snd].
    intros h' Hh' _. cbn in Hh'. inversion Hh'; subst h'.
    exists ino'. repeat split; auto.
  - unfold out_logger, out_world. cbn [fst snd].
    intros h' Hh' _. cbn in Hh'. inversion Hh'; subst h'.
    rewrite Z.gtb_ltb in Hsz. apply Z.ltb_ge in Hsz.
    assert (Hnil : i_data ino' = []) by (apply nil_length_inv; lia).
    exists ino'. repeat split; auto; cbn; by rewrite Hnil.
Qed.

Lemma counters_match_closed f w' :
  counters_match (set_fileWriter (file_Close (fileWriter f)) f) w'.
Proof.
  intros h Hh Hc. cbn in Hh. destruct (fileWriter f) as [h0|]; [|discriminate].
  cbn in Hh. inversion Hh; subst h. discriminate Hc.
Qed.

Lemma counters_match_inodes f w w' :
  w_inodes w' = w_inodes w -> counters_match f w -> counters_match f w'.
Proof. intros Hi Hm h Hh Hc. rewrite Hi. by apply Hm. Qed.

Lemma os_Rename_fails old new w s :
  w_fails (snd (os_Rename old new w)) s = w_fails w s.
Proof. unfold os_Rename. repeat case_match; reflexivity. Qed.

Lemma RestartLogger_counters_match f w :
  (forall s, w_fails w s = false) -> counters_match f w ->
  counters_match (out_logger (RestartLogger f w)) (out_world (RestartLogger f w)).
Proof.
  intros Hf Hm. rewrite RestartLogger_logger.
  apply (counters_match_inodes _ (out_world (newFile f w))).
  - rewrite RestartLogger_world, newFile_world. reflexivity.
  - by apply newFile_counters_match.
Qed.

Lemma createFreshFile_counters_match t f w :
  (forall s, w_fails w s = false) -> counters_match f w ->
  counters_match (out_logger (createFreshFile t f w)) (out_world (createFreshFile t f w)).
Proof.
  intros Hf Hm. unfold createFreshFile.
  destruct (Go.strconv_ParseInt8 _) as [perm|]; [|exact Hm].
  destruct (os_Lstat _ _); [|by apply RestartLogger_counters_match].
  destruct (if negb _ then _ else _) as [[num fName] [e0|]]; [|exact Hm].
  pose proof (os_Rename_fails (Filename f) fName w) as Hrf.
  destruct (os_Rename _ _ _) as [[e|] w1]; cbn [snd] in Hrf.
  - apply RestartLogger_counters_match; [|apply counters_match_closed].
    intros s. cbn. by rewrite Hrf.
  - destruct (os_Chmod_env fName perm w1) as (_ & _ & _ & Hcf & _).
    destruct (os_Chmod _ _ _) as [[e|] w2]; cbn [snd] in Hcf.
    + apply counters_match_closed.
    + apply RestartLogger_counters_match; [|apply counters_match_closed].
      intros s. by rewrite Hcf, Hrf.
Qed.

Lemma RestartLogger_fails f w s :
  w_fails (out_world (RestartLogger f w)) s = w_fails w s.
Proof.
  rewrite RestartLogger_world. cbn.
  destruct (createLogFile_env f w) as (_ & _ & _ & Hcf & _). by rewrite Hcf.
Qed.

Lemma createFreshFile_fails t f w s :
  w_fails (out_world (createFreshFile t f w)) s = w_fails w s.
Proof.
  unfold createFreshFile.
  destruct (Go.strconv_ParseInt8 _) as [perm|]; [|reflexivity].
  destruct (os_Lstat _ _); [|apply RestartLogger_fails].
  destruct (if negb _ then _ else _) as [[num fName] [e0|]]; [|reflexivity].
  pose proof (os_Rename_fails (Filename f) fName w s) as Hrf.
  destruct (os_Rename _ _ _) as [[e|] w1]; cbn [snd] in Hrf.
  - rewrite RestartLogger_fails. exact Hrf.
  - destruct (os_Chmod_env fName perm w1) as (_ & _ & _ & Hcf & _).
    destruct (os_Chmod _ _ _) as [[e|] w2]; cbn [snd] in Hcf.
    + unfold out_world. cbn. by rewrite Hcf.
    + rewrite RestartLogger_fails. by rewrite Hcf.
Qed.

Lemma rotate_if_due_fails when msg f w s :
  w_fails (snd (rotate_if_due when msg f w)) s = w_fails w s.
Proof.
  unfold rotate_if_due. destruct (Append f); [|reflexivity].
  destruct (needCreateFresh _ _ _); [|reflexivity].
  pose proof (createFreshFile_fails when f w s) as H.
  destruct (createFreshFile when f w) as [[[e|] f1] w1]; exact H.
Qed.

(** X9: when no system call fails, a write of a message without a line
    terminator inside keeps the counters equal to the size and the number of
    line terminators of the file behind the open handle, as long as the
    counters stay within the range of [int]; so does the rotation step
    before the append. *)
Theorem LogWrite_keeps_counters when msg level f w :
  level <= LogLevel f ->
  (forall s, w_fails w s = false) ->
  Go.newline ∉ Go.bytes_of msg ->
  counters_match f w ->
  let r := rotate_if_due when (msg ++ Go.nl) f w in
  Go.in_int (maxLinesCurLines (fst r) + 1) ->
  Go.in_int (maxSizeCurSize (fst r) + (Go.len msg + 1)) ->
  let o := LogWrite when (IString msg) level f w in
  counters_match (fst r) (snd r)
  /\ counters_match (out_logger o) (out_world o).
Proof.
  intros Hl Hf Hnl Hm r Hr1 Hr2 o.
  assert (Hmr : counters_match (fst r) (snd r)).
  { subst r. unfold rotate_if_due. destruct (Append f); [|exact Hm].
    destruct (needCreateFresh _ _ _); [|exact Hm].
    pose proof (createFreshFile_counters_match when f w Hf Hm) as H.
    destruct (createFreshFile when f w) as [[[e|] f1] w1]; exact H. }
  split; [exact Hmr|].
  subst o. rewrite (LogWrite_passed _ _ _ _ _ Hl). fold r. cbv zeta.
  destruct (fileWriter (fst r)) as [h|] eqn:Hfw; [|exact Hmr].
  destruct (h_closed h) eqn:Hc.
  { unfold file_Write. rewrite Hc. exact Hmr. }
  destruct (Hmr h Hfw Hc) as (ino & Hi & Hsz & Hln).
  assert (Hw : w_fails (snd r) (SysWrite (h_ino h)) = false).
  { subst r. rewrite rotate_if_due_fails. apply Hf. }
  rewrite (file_Write_done h _ (snd r) ino Hc Hw Hi).
  unfold out_logger, out_world. cbn [fst snd].
  intros h' Hh' _. cbn in Hh'. rewrite Hfw in Hh'. inversion Hh'; subst h'.
  eexists. cbn [set_fs w_inodes]. rewrite lookup_insert_eq. split; [reflexivity|].
  cbn [i_data set_counters maxSizeCurSize maxLinesCurLines].
  rewrite len_line, !int_add_exact by done.
  rewrite bytes_of_line, !length_app, !bytes_Count_app, (bytes_Count_none _ _ Hnl).
  change (Go.bytes_Count [Go.newline] Go.newline) with 1.
  unfold Go.len. unfold Go.bytes_of. rewrite Hsz, Hln.
  assert (Hlen : length (list_ascii_of_string msg) = String.length msg).
  { clear. induction msg as [|c msg IH]; simpl; [reflexivity|by rewrite IH]. }
  rewrite Hlen. cbn [length]. split; lia.
Qed.

(** ** The permissions and the handle of the opened file *)

Lemma createLogFile_ok f w perm h w1 :
  Go.strconv_ParseInt8 (PermitMask f) = Some perm ->
  createLogFile f w = (Ok h, w1) ->
  exists ino',
    h = mkHandle (Filename f) (h_ino h) false
    /\ w_names w1 !! Filename f = Some (h_ino h)
    /\ w_inodes w1 !! h_ino h = Some ino'
    /\ i_mode ino' = perm_bits perm /\ i_dir ino' = false
    /\ match os_Lstat (Filename f) w with
       | Some old => i_data ino' = i_data old /\ i_mtime ino' = i_mtime old
       | None => i_data ino' = [] /\ i_mtime ino' = w_now w
       end
    /\ forall p, p <> Filename f -> w_names w1 !! p = w_names w !! p.
Proof.
  intros Hp. unfold createLogFile, os_Lstat. rewrite Hp. unfold os_OpenFile.
  destruct (w_fails w (SysOpenFile _)); [discriminate|].
  destruct (w_names w !! Filename f) as [i|] eqn:Hn.
  - destruct (w_inodes w !! i) as [ino|] eqn:Hi; [|discriminate].
    destruct (i_dir ino) eqn:Hd; [discriminate|].
    unfold os_Chmod. destruct (w_fails w (SysChmod _)); [discriminate|].
    rewrite Hn, Hi. intros H. inversion H; subst h w1; clear H. eexists. cbn.
    rewrite lookup_insert_eq. repeat split; auto.
  - unfold os_Chmod. cbn. destruct (w_fails w (SysChmod _)); [discriminate|].
    rewrite !lookup_insert_eq. intros H. inversion H; subst h w1; clear H. eexists. cbn.
    rewrite !lookup_insert_eq. repeat split; auto.
    intros p Hne. by rewrite lookup_insert_ne.
Qed.

(** X10: whenever [createLogFile] returns a file, the file at the filename has
    exactly the configured permission bits, whatever the umask, the handle
    is open on it, an existing file keeps its content and modification
    time, a new one is empty, and no other directory entry changes. *)
Theorem createLogFile_sets_permissions f w perm h w1 :
  Go.strconv_ParseInt8 (PermitMask f) = Some perm ->
  createLogFile f w = (Ok h, w1) ->
  h_closed h = false /\ h_name h = Filename f
  /\ exists ino',
       os_Lstat (Filename f) w1 = Some ino'
       /\ w_inodes w1 !! h_ino h = Some ino'
       /\ i_mode ino' = Z.land perm 511 /\ i_dir ino' = false
       /\ (forall old, os_Lstat (Filename f) w = Some old ->
             i_data ino' = i_data old /\ i_mtime ino' = i_mtime old)
       /\ (os_Lstat (Filename f) w = None -> i_data ino' = [])
       /\ forall p, p <> Filename f -> w_names w1 !! p = w_names w !! p.
Proof.
  intros Hp Hc.
  destruct (createLogFile_ok f w perm h w1 Hp Hc)
    as (ino' & Hh & Hn & Hi & Hm & Hd & Hold & Hoth).
  rewrite Hh. cbn. repeat split. exists ino'.
  unfold os_Lstat at 1. rewrite Hn, Hi. repeat split; auto.
  - destruct (os_Lstat (Filename f) w); [|discriminate]. inversion H; subst. tauto.
  - destruct (os_Lstat (Filename f) w); [|discriminate]. inversion H; subst. tauto.
  - intros Hnone. rewrite Hnone in Hold. tauto.
Qed.

(** X11: an error of [newFile] does not mean that nothing happened. When the
    open fails the logger is untouched; when the open succeeds and the
    stat or the line count fails, the error is returned with the new open
    handle installed in the logger, the line counter unchanged or zero. *)
Theorem newFile_error_after_open f w e :
  out_err (newFile f w) = Some e ->
  (exists w1, createLogFile f w = (Err e, w1) /\ newFile f w = (Some e, f, w1))
  \/ (exists h w1,
        createLogFile f w = (Ok h, w1)
        /\ fileWriter (out_logger (newFile f w)) = Some h
        /\ out_world (newFile f w) = w1
        /\ ((exists e0, e = fmt_Errorf "get stat err" e0
                        /\ out_logger (newFile f w) = set_fileWriter (Some h) f)
            \/ maxLinesCurLines (out_logger (newFile f w)) = 0)).
Proof.
  unfold newFile. destruct (createLogFile f w) as [[h|e1] w1] eqn:Hc.
  - intros He. right. exists h, w1. split; [reflexivity|].
    destruct (file_Stat h w1) as [info|e0]; cbn in *.
    + case_match; [|discriminate He].
      destruct (lines _ _) as [c [e2|]]; [|discriminate He]. cbn. auto.
    + repeat split. left. exists e0. split; [|reflexivity].
      unfold out_err in He. cbn in He. congruence.
  - intros He. left. exists w1. unfold out_err in He. cbn in He.
    inversion He; subst. auto.
Qed.

(** ** The names derived at initialization *)

Lemma has_prefix_app p s : Go.has_prefix p (p ++ s) = true.
Proof. induction p as [|c p IH]; [reflexivity|]. cbn. by rewrite Ascii.eqb_refl, IH. Qed.

Lemma ext_go_spec r : forall acc,
  Go.ext_go r acc = [] \/ exists n, Go.ext_go r acc = (rev (take n r) ++ acc)%list.
Proof.
  induction r as [|c r IH]; intros acc; [by left|]. cbn [Go.ext_go].
  destruct (Go.is_sep c); [by left|].
  destruct (Ascii.eqb c "."%char).
  - right. exists 1%nat. reflexivity.
  - destruct (IH (c :: acc)) as [H|[n H]]; [by left|]. right. exists (S n).
    rewrite H. cbn [take rev]. by rewrite <- app_assoc.
Qed.

Lemma ext_is_suffix cs : exists pre, cs = (pre ++ Go.ext_go (rev cs) [])%list.
Proof.
  destruct (ext_go_spec (rev cs) []) as [H|[n H]]; rewrite H.
  - exists cs. by rewrite app_nil_r.
  - exists (rev (drop n (rev cs))). rewrite app_nil_r, <- rev_app_distr, take_drop.
    by rewrite rev_involutive.
Qed.

Lemma string_of_list_ascii_app a b :
  string_of_list_ascii (a ++ b) = string_of_list_ascii a ++ string_of_list_ascii b.
Proof. induction a as [|c a IH]; [reflexivity|]. cbn. by rewrite IH. Qed.

Lemma length_bytes_of s : length (Go.bytes_of s) = String.length s.
Proof. unfold Go.bytes_of. induction s as [|c s IH]; simpl; [reflexivity|by rewrite IH]. Qed.

(** Cutting the extension off a path and putting it back gives the path. *)
Lemma trim_ext path :
  Go.strings_TrimSuffix path (Go.filepath_Ext path) ++ Go.filepath_Ext path = path.
Proof.
  unfold Go.strings_TrimSuffix, Go.strings_HasSuffix, Go.filepath_Ext.
  destruct (ext_is_suffix (Go.bytes_of path)) as [pre Hpre].
  set (ext := Go.ext_go (rev (Go.bytes_of path)) []) in *.
  unfold Go.bytes_of at 1 2. rewrite list_ascii_of_string_of_list_ascii.
  fold (Go.bytes_of path).
  rewrite Hpre at 1. rewrite rev_app_distr, has_prefix_app.
  rewrite <- (length_bytes_of path), <- (length_bytes_of (string_of_list_ascii ext)).
  unfold Go.bytes_of at 2. rewrite list_ascii_of_string_of_list_ascii.
  rewrite Hpre at 1 2. rewrite length_app.
  replace (length pre + length ext - length ext)%nat with (length pre) by lia.
  rewrite take_app_length, <- string_of_list_ascii_app, <- Hpre.
  apply string_of_list_ascii_of_string.
Qed.

Lemma Init_decoded_settings json_Unmarshal LevelMap cfg f f1 w :
  cfg <> "" -> json_Unmarshal cfg f = (None, f1) -> Filename f1 <> "" ->
  exists f5,
    Init json_Unmarshal LevelMap cfg f w = newFile f5 w
    /\ Filename f5 = Filename f1 /\ PermitMask f5 = PermitMask f1
    /\ fileWriter f5 = fileWriter f1
    /\ fileNameOnly f5
       = Go.strings_TrimSuffix (Filename f1) (Go.filepath_Ext (Filename f1))
    /\ suffix f5 = (if String.eqb (Go.filepath_Ext (Filename f1)) "" then ".log"
                    else Go.filepath_Ext (Filename f1))
    /\ MaxSize f5 = Go.int_mul (MaxSize f1) (1024 * 1024).
Proof.
  intros Hc Hu Hn. unfold Init. rewrite (len_nonempty _ Hc), Hu, (len_nonempty _ Hn).
  eexists. split; [reflexivity|].
  cbv zeta. cbn [suffix set_MaxSize set_names].
  destruct (String.eqb _ _); destruct (LevelMap _); repeat split.
Qed.

(** X12: after [Init] has decoded a configuration with a filename, whether the
    file can then be opened or not: the base name and the extension of the
    filename put together are the filename, the suffix is that extension,
    or [.log] when the filename has none, the size limit is the configured
    number times 1048576 in [int] arithmetic, and no archival name, for any
    date and sequence number, is the filename itself. *)
Theorem Init_derives_names
    (json_Unmarshal : string -> fileLogger -> option error * fileLogger)
    (LevelMap : string -> option logLevel) cfg f f1 w :
  cfg <> "" -> json_Unmarshal cfg f = (None, f1) -> Filename f1 <> "" ->
  let f' := out_logger (Init json_Unmarshal LevelMap cfg f w) in
  Filename f' = Filename f1
  /\ fileNameOnly f' ++ Go.filepath_Ext (Filename f1) = Filename f1
  /\ suffix f' = (if String.eqb (Go.filepath_Ext (Filename f1)) "" then ".log"
                  else Go.filepath_Ext (Filename f1))
  /\ suffix f' <> ""
  /\ MaxSize f' = Go.int_mul (MaxSize f1) (1024 * 1024)
  /\ forall stamp num, archiveName f' stamp num <> Filename f'.
Proof.
  intros Hc Hu Hn f'.
  destruct (Init_decoded_settings json_Unmarshal LevelMap cfg f f1 w Hc Hu Hn)
    as (f5 & HI & Hfn & _ & _ & Hon & Hsf & Hms).
  pose proof (newFile_settings f5 w) as Hs. subst f'. rewrite HI.
  destruct Hs as (Sfn & _ & _ & Sms & _ & _ & _ & _ & Son & Ssf).
  rewrite Sfn, Son, Ssf, Sms, Hfn, Hon, Hsf, Hms.
  pose proof (trim_ext (Filename f1)) as Ht.
  assert (Hne : (if String.eqb (Go.filepath_Ext (Filename f1)) "" then ".log"
                 else Go.filepath_Ext (Filename f1)) <> "").
  { destruct (String.eqb_spec (Go.filepath_Ext (Filename f1)) ""); [discriminate|done]. }
  repeat split; try done.
  intros stamp num Heq. unfold archiveName in Heq.
  rewrite Son, Ssf, Hon, Hsf in Heq.
  apply (f_equal String.length) in Heq. apply (f_equal String.length) in Ht.
  repeat rewrite string_length_append in Heq.
  rewrite string_length_append in Ht.
  cbn [String.length] in Heq.
  destruct (String.eqb_spec (Go.filepath_Ext (Filename f1)) "") as [He|He].
  - rewrite He in Heq, Ht. cbn [String.length] in Heq, Ht. lia.
  - lia.
Qed.

(** X13: [Init] opens nothing when the configuration does not pass its checks:
    a decoding error, a missing filename or a permission mask that is not
    an octal number give an error, leave the file system as it was and
    install no handle. *)
Theorem Init_rejects_without_opening
    (json_Unmarshal : string -> fileLogger -> option error * fileLogger)
    (LevelMap : string -> option logLevel) cfg f r f1 w :
  cfg <> "" -> json_Unmarshal cfg f = (r, f1) ->
  r <> None \/ Filename f1 = "" \/ Go.strconv_ParseInt8 (PermitMask f1) = None ->
  let o := Init json_Unmarshal LevelMap cfg f w in
  out_err o <> None /\ out_world o = w /\ fileWriter (out_logger o) = fileWriter f1
  /\ (r = None -> Filename f1 = "" ->
      out_err o = Some (errors_New "jsonConfig must have filename")).
Proof.
  intros Hc Hu Hwhy o. subst o.
  destruct r as [e|].
  { unfold Init. rewrite (len_nonempty _ Hc), Hu. repeat split; done. }
  destruct (String.eqb_spec (Filename f1) "") as [Hn|Hn].
  { unfold Init. rewrite (len_nonempty _ Hc), Hu, Hn. repeat split; done. }
  destruct Hwhy as [?|[?|Hp]]; [done|done|].
  destruct (Init_decoded_settings json_Unmarshal LevelMap cfg f f1 w Hc Hu Hn)
    as (f5 & HI & _ & Hpm & Hfw & _).
  rewrite HI. unfold newFile, createLogFile. rewrite Hpm, Hp.
  repeat split; done.
Qed.

(** ** Sweeping twice *)

Lemma world_ext w w' :
  w_names w' = w_names w -> w_inodes w' = w_inodes w -> same_env w w' -> w' = w.
Proof.
  destruct w, w'. unfold same_env. cbn. intros -> -> (-> & -> & -> & -> & ->).
  reflexivity.
Qed.

Lemma sweep_step_env f w p : same_env w (sweep_step f w p).
Proof.
  rewrite sweep_step_spec. destruct (swept f w p); unfold same_env; cbn; tauto.
Qed.

Lemma sweep_fold_env f l : forall w, same_env w (foldl (sweep_step f) w l).
Proof.
  induction l as [|p l IH]; intros w; cbn [foldl]; [unfold same_env; tauto|].
  pose proof (sweep_step_env f w p) as H1. pose proof (IH (sweep_step f w p)) as H2.
  unfold same_env in *. intuition congruence.
Qed.

Lemma deleteOldLog_env f w : same_env w (deleteOldLog f w).
Proof.
  rewrite deleteOldLog_walk. destruct (root_exists _ _); [apply sweep_fold_env|].
  unfold same_env; tauto.
Qed.

(** X14: a second sweep at the same instant removes nothing more: what the
    first one left is either not a candidate or could not be removed. *)
Theorem deleteOldLog_idempotent f w :
  deleteOldLog f (deleteOldLog f w) = deleteOldLog f w.
Proof.
  set (w' := deleteOldLog f w).
  destruct (deleteOldLog_env f w) as (Hs & Hsw & Hnow & Hfl & Hum). fold w' in Hs, Hsw, Hnow, Hfl, Hum.
  assert (Hi : w_inodes w' = w_inodes w) by exact (proj1 (deleteOldLog_names f w "")).
  assert (Hn : forall q, w_names w' !! q
                 = if root_exists (Go.filepath_Dir (Filename f)) w
                      && under (Go.filepath_Dir (Filename f)) q && swept f w q
                   then None else w_names w !! q)
    by (intros q; exact (proj2 (deleteOldLog_names f w q))).
  apply world_ext; [|exact (proj1 (deleteOldLog_names f w' ""))|apply deleteOldLog_env].
  apply map_eq. intros q. rewrite (proj2 (deleteOldLog_names f w' q)).
  destruct (root_exists (Go.filepath_Dir (Filename f)) w'
            && under (Go.filepath_Dir (Filename f)) q && swept f w' q) eqn:Hdel;
    [|reflexivity].
  apply andb_true_iff in Hdel as [Hdel Hsq]. apply andb_true_iff in Hdel as [Hr Hu].
  destruct (w_names w' !! q) as [i|] eqn:Hq; [exfalso|reflexivity].
  pose proof (Hn q) as Hnq. rewrite Hq in Hnq.
  destruct (root_exists (Go.filepath_Dir (Filename f)) w
            && under (Go.filepath_Dir (Filename f)) q && swept f w q) eqn:Hdel0;
    [discriminate Hnq|].
  assert (Hsq0 : swept f w q = true).
  { rewrite <- Hsq. symmetry. apply swept_frame; auto. by rewrite Hq. }
  assert (Hr0 : root_exists (Go.filepath_Dir (Filename f)) w = true).
  { unfold root_exists in *. apply orb_true_iff in Hr as [Hr|Hr]; [by rewrite Hr|].
    apply orb_true_iff. right. apply bool_decide_eq_true in Hr. apply bool_decide_eq_true.
    unfold os_Lstat in *. rewrite Hi in Hr.
    destruct (w_names w' !! Go.filepath_Dir (Filename f)) as [d|] eqn:Hd;
      [|by destruct Hr].
    pose proof (Hn (Go.filepath_Dir (Filename f))) as Hnd. rewrite Hd in Hnd.
    match type of Hnd with
    | _ = (if ?c then _ else _) => destruct c; [discriminate Hnd|]
    end.
    by rewrite <- Hnd. }
  rewrite Hr0, Hu, Hsq0 in Hdel0. discriminate Hdel0.
Qed.

(** ** The further properties on concrete states *)

Lemma createFreshFile_archives_and_restarts_witness :
  let t := Fixture.day 18629 + 7 in
  let w := Fixture.w_app Fixture.no_faults (Fixture.day 18629 + 5) in
  let o := createFreshFile t Fixture.f_app w in
  (Go.strconv_ParseInt8 (PermitMask Fixture.f_app) = Some 420
   /\ w_names w !! Filename Fixture.f_app = Some 1%nat
   /\ w_inodes w !! 1%nat = Some Fixture.two_lines
   /\ (forall s, w_fails w s = false))
  /\ os_Lstat "app.2021-01-02.001.log" (out_world o)
     = Some (mkInode false (i_data Fixture.two_lines) 420 (Fixture.day 18628))
  /\ os_Lstat "app.log" (out_world o) = Some (mkInode false [] 420 (Fixture.day 18629 + 5))
  /\ maxLinesCurLines (out_logger o) = 0.
Proof.
  intros t w o.
  assert (Hp : Go.strconv_ParseInt8 (PermitMask Fixture.f_app) = Some 420) by reflexivity.
  assert (Hn : w_names w !! Filename Fixture.f_app = Some 1%nat) by reflexivity.
  assert (Hi : w_inodes w !! 1%nat = Some Fixture.two_lines) by reflexivity.
  assert (Hk : 1 <= 1 <= 999) by lia.
  assert (Hff : first_free Fixture.f_app (rotation_stamp t Fixture.f_app) w 1).
  { split; [reflexivity|]. intros j Hj. lia. }
  assert (Hf : forall s, w_fails w s = false) by reflexivity.
  destruct (createFreshFile_archives_and_restarts t Fixture.f_app w 420 1 1%nat
              Fixture.two_lines Hp Hn Hi Hk Hff Hf)
    as (_ & _ & Hl & _ & _ & Ha & Hb & _).
  exact (conj (conj Hp (conj Hn (conj Hi Hf))) (conj Ha (conj Hb Hl))).
Defined.


Lemma LogWrite_rotates_then_appends_witness :
  let t := Fixture.day 18629 + 7 in
  let w := Fixture.w_app Fixture.no_faults (Fixture.day 18629 + 5) in
  let o := LogWrite t (IString "hello") 3 Fixture.f_app w in
  (3 <= LogLevel Fixture.f_app
   /\ needCreateFresh Fixture.f_app (Go.len "hello" + 1) (Go.time_Day t) = true
   /\ Go.len "hello" < Go.int_max
   /\ (forall s, w_fails w s = false))
  /\ (i_data <$> os_Lstat "app.2021-01-02.001.log" (out_world o))
     = Some (i_data Fixture.two_lines)
  /\ (i_data <$> os_Lstat "app.log" (out_world o))
     = Some (Go.bytes_of "hello" ++ [Go.newline])%list
  /\ maxLinesCurLines (out_logger o) = 1.
Proof.
  intros t w o.
  assert (Hl : 3 <= LogLevel Fixture.f_app) by (vm_compute; discriminate).
  assert (Hd : needCreateFresh Fixture.f_app (Go.len "hello" + 1) (Go.time_Day t) = true)
    by reflexivity.
  assert (Hm : Go.len "hello" < Go.int_max) by reflexivity.
  assert (Hk : 1 <= 1 <= 999) by lia.
  assert (Hff : first_free Fixture.f_app (rotation_stamp t Fixture.f_app) w 1).
  { split; [reflexivity|]. intros j Hj. lia. }
  assert (Hf : forall s, w_fails w s = false) by reflexivity.
  destruct (LogWrite_rotates_then_appends t "hello" 3 Fixture.f_app w 420 1 1%nat
              Fixture.two_lines Hl eq_refl Hd Hm eq_refl eq_refl eq_refl Hk
              Hff Hf)
    as (_ & Ha & Hb & Hc & _).
  exact (conj (conj Hl (conj Hd (conj Hm Hf))) (conj Ha (conj Hb Hc))).
Defined.

Lemma LogWrite_failed_rotation_still_appends_witness :
  let t := Fixture.day 18629 + 7 in
  let w := Fixture.w_app Fixture.no_faults (Fixture.day 18629 + 5) in
  let o := LogWrite t (IString "hello") 3 Fixture.f_badperm w in
  (3 <= LogLevel Fixture.f_badperm
   /\ needCreateFresh Fixture.f_badperm (Go.len "hello" + 1) (Go.time_Day t) = true
   /\ Go.strconv_ParseInt8 (PermitMask Fixture.f_badperm) = None)
  /\ out_err o = None
  /\ w_names (out_world o) = w_names w
  /\ (i_data <$> w_inodes (out_world o) !! 1%nat)
     = Some (i_data Fixture.two_lines ++ Go.bytes_of "hello" ++ [Go.newline])%list.
Proof.
  intros t w o.
  assert (Hl : 3 <= LogLevel Fixture.f_badperm) by (vm_compute; discriminate).
  assert (Hd : needCreateFresh Fixture.f_badperm (Go.len "hello" + 1) (Go.time_Day t) = true)
    by reflexivity.
  assert (Hp : Go.strconv_ParseInt8 (PermitMask Fixture.f_badperm) = None) by reflexivity.
  destruct (LogWrite_failed_rotation_still_appends t "hello" 3 Fixture.f_badperm w
              (mkHandle "app.log" 1 false) Fixture.two_lines Hl eq_refl Hd (or_introl Hp)
              eq_refl eq_refl eq_refl eq_refl)
    as (He & Hn & Hdata & _).
  exact (conj (conj Hl (conj Hd Hp)) (conj He (conj Hn Hdata))).
Defined.

Lemma LogWrite_keeps_line_limit_witness :
  let t := Fixture.day 18629 + 7 in
  let w := Fixture.w_app Fixture.no_faults (Fixture.day 18629 + 5) in
  let f' := out_logger (LogWrite t (IString "hello") 3 Fixture.f_app w) in
  (3 <= LogLevel Fixture.f_app
   /\ 0 < MaxLines Fixture.f_app <= Go.int_max
   /\ 0 <= maxLinesCurLines Fixture.f_app <= MaxLines Fixture.f_app
   /\ (forall s, w_fails w s = false))
  /\ 0 <= maxLinesCurLines f' <= MaxLines Fixture.f_app.
Proof.
  intros t w f'.
  assert (Hl : 3 <= LogLevel Fixture.f_app) by (vm_compute; discriminate).
  assert (Hm : 0 < MaxLines Fixture.f_app <= Go.int_max) by (split; vm_compute; congruence).
  assert (Hc : 0 <= maxLinesCurLines Fixture.f_app <= MaxLines Fixture.f_app)
    by (split; vm_compute; discriminate).
  assert (Hk : 1 <= 1 <= 999) by lia.
  assert (Hff : first_free Fixture.f_app (rotation_stamp t Fixture.f_app) w 1).
  { split; [reflexivity|]. intros j Hj. lia. }
  assert (Hf : forall s, w_fails w s = false) by reflexivity.
  exact (conj (conj Hl (conj Hm (conj Hc Hf)))
           (proj2 (LogWrite_keeps_line_limit t "hello" 3 Fixture.f_app w 420 1 1%nat
                     Fixture.two_lines Hl eq_refl Hm Hc eq_refl eq_refl eq_refl Hk
                     Hff Hf))).
Defined.

Lemma LogWrite_without_rotation_frame_witness :
  let t := Fixture.day 18629 + 7 in
  let f := set_counters 1 2 Fixture.f_app in
  let w := Fixture.w_app Fixture.no_faults (Fixture.day 18629 + 5) in
  let o := LogWrite t (IString "hello") 3 f w in
  (forall msg, IString "hello" = IString msg ->
     Append f = false \/ needCreateFresh f (Go.len msg + 1) (Go.time_Day t) = false)
  /\ w_names (out_world o) = w_names w
  /\ w_stderr (out_world o) = w_stderr w
  /\ w_sweeps (out_world o) = w_sweeps w.
Proof.
  intros t f w o.
  assert (Hnd : forall msg, IString "hello" = IString msg ->
            Append f = false \/ needCreateFresh f (Go.len msg + 1) (Go.time_Day t) = false).
  { intros msg Hm. inversion Hm; subst msg. right. reflexivity. }
  destruct (LogWrite_without_rotation_frame t (IString "hello") 3 f w Hnd)
    as (Hn & Hs & Hsw & _).
  exact (conj Hnd (conj Hn (conj Hs Hsw))).
Defined.

Lemma LogWrite_appends_line_witness :
  let t := Fixture.day 18629 + 7 in
  let f := set_counters 1 2 Fixture.f_app in
  let w := Fixture.w_app Fixture.no_faults (Fixture.day 18629 + 5) in
  let o := LogWrite t (IString "hello") 3 f w in
  (3 <= LogLevel f
   /\ (Append f = false \/ needCreateFresh f (Go.len "hello" + 1) (Go.time_Day t) = false)
   /\ fileWriter f = Some (mkHandle "app.log" 1 false)
   /\ w_inodes w !! 1%nat = Some Fixture.two_lines
   /\ w_fails w (SysWrite 1) = false)
  /\ w_inodes (out_world o) !! 1%nat
     = Some (mkInode false (i_data Fixture.two_lines ++ Go.bytes_of "hello" ++ [Go.newline])
               420 (Fixture.day 18629 + 5)).
Proof.
  intros t f w o.
  assert (Hl : 3 <= LogLevel f) by (vm_compute; discriminate).
  assert (Hnd : Append f = false
                \/ needCreateFresh f (Go.len "hello" + 1) (Go.time_Day t) = false)
    by (right; reflexivity).
  assert (Hfw : fileWriter f = Some (mkHandle "app.log" 1 false)) by reflexivity.
  assert (Hi : w_inodes w !! 1%nat = Some Fixture.two_lines) by reflexivity.
  assert (Hf : w_fails w (SysWrite 1) = false) by reflexivity.
  exact (conj (conj Hl (conj Hnd (conj Hfw (conj Hi Hf))))
           (proj1 (proj2 (LogWrite_appends_line t "hello" 3 f w (mkHandle "app.log" 1 false)
                            Fixture.two_lines Hl Hnd Hfw eq_refl Hi Hf)))).
Defined.

Lemma LogWrite_keeps_open_date_witness :
  let t := Fixture.day 18630 + 7 in
  let w := Fixture.w_app Fixture.no_faults (Fixture.day 18630 + 5) in
  let f' := out_logger (LogWrite t (IString "hello") 3 Fixture.f_app w) in
  dailyOpenDate Fixture.f_app = Go.time_Day (dailyOpenTime Fixture.f_app)
  /\ dailyOpenDate f' = Go.time_Day (dailyOpenTime f').
Proof.
  intros t w f'.
  assert (H : dailyOpenDate Fixture.f_app = Go.time_Day (dailyOpenTime Fixture.f_app))
    by reflexivity.
  exact (conj H (LogWrite_keeps_open_date t (IString "hello") 3 Fixture.f_app w H)).
Defined.

Lemma LogWrite_keeps_counters_witness :
  let t := Fixture.day 18629 + 7 in
  let w := Fixture.w_app Fixture.no_faults (Fixture.day 18629 + 5) in
  let r := rotate_if_due t ("hello" ++ Go.nl) Fixture.f_app w in
  let o := LogWrite t (IString "hello") 3 Fixture.f_app w in
  (3 <= LogLevel Fixture.f_app
   /\ (forall s, w_fails w s = false)
   /\ (Go.newline ∉ Go.bytes_of "hello")
   /\ counters_match Fixture.f_app w
   /\ Go.in_int (maxLinesCurLines (fst r) + 1)
   /\ Go.in_int (maxSizeCurSize (fst r) + (Go.len "hello" + 1)))
  /\ counters_match (out_logger o) (out_world o).
Proof.
  intros t w r o.
  assert (Hl : 3 <= LogLevel Fixture.f_app) by (vm_compute; discriminate).
  assert (Hf : forall s, w_fails w s = false) by reflexivity.
  assert (Hnl : Go.newline ∉ Go.bytes_of "hello").
  { intros Hin. apply list_elem_of_In in Hin. cbn in Hin.
    repeat (destruct Hin as [Hin|Hin]; [discriminate Hin|]). exact Hin. }
  assert (Hm : counters_match Fixture.f_app w).
  { intros h Hh _. inversion Hh; subst h. exists Fixture.two_lines. repeat split. }
  assert (H1 : Go.in_int (maxLinesCurLines (fst r) + 1))
    by (split; vm_compute; discriminate).
  assert (H2 : Go.in_int (maxSizeCurSize (fst r) + (Go.len "hello" + 1)))
    by (split; vm_compute; discriminate).
  exact (conj (conj Hl (conj Hf (conj Hnl (conj Hm (conj H1 H2)))))
           (proj2 (LogWrite_keeps_counters t "hello" 3 Fixture.f_app w Hl Hf Hnl Hm H1 H2))).
Defined.

Lemma createLogFile_sets_permissions_witness :
  let w := Fixture.w_app Fixture.no_faults (Fixture.day 18629 + 5) in
  let h := mkHandle "app.log" 1 false in
  let w1 := snd (createLogFile Fixture.f_cfg w) in
  (Go.strconv_ParseInt8 (PermitMask Fixture.f_cfg) = Some 420
   /\ createLogFile Fixture.f_cfg w = (Ok h, w1))
  /\ h_closed h = false
  /\ exists ino', os_Lstat "app.log" w1 = Some ino' /\ i_mode ino' = 420
                  /\ i_data ino' = i_data Fixture.two_lines.
Proof.
  intros w h w1.
  assert (Hp : Go.strconv_ParseInt8 (PermitMask Fixture.f_cfg) = Some 420) by reflexivity.
  assert (Hc : createLogFile Fixture.f_cfg w = (Ok h, w1)) by reflexivity.
  destruct (createLogFile_sets_permissions Fixture.f_cfg w 420 h w1 Hp Hc)
    as (Hcl & _ & ino' & Hls & _ & Hmode & _ & Hold & _).
  refine (conj (conj Hp Hc) (conj Hcl _)).
  exists ino'. refine (conj Hls (conj Hmode _)).
  exact (proj1 (Hold Fixture.two_lines eq_refl)).
Defined.

Lemma newFile_error_after_open_witness :
  let w := Fixture.w_app Fixture.stat_fails (Fixture.day 18629 + 5) in
  let e := fmt_Errorf "get stat err" (PathError "stat" "app.log" Injected) in
  out_err (newFile Fixture.f_cfg w) = Some e
  /\ fileWriter (out_logger (newFile Fixture.f_cfg w)) = Some (mkHandle "app.log" 1 false).
Proof.
  intros w e.
  assert (He : out_err (newFile Fixture.f_cfg w) = Some e) by reflexivity.
  refine (conj He _).
  destruct (newFile_error_after_open Fixture.f_cfg w e He)
    as [(w1 & Hc & _)|(h & w1 & Hc & Hfw & _)].
  - discriminate Hc.
  - rewrite Hfw. f_equal.
    vm_compute in Hc. by inversion Hc.
Defined.

Lemma Init_derives_names_witness :
  let w := Fixture.w_app Fixture.no_faults (Fixture.day 18629 + 5) in
  let f' := out_logger (Init Fixture.decode Fixture.no_levels "{}" (registered 7) w) in
  ("{}" <> "" /\ Fixture.decode "{}" (registered 7) = (None, Fixture.f_cfg)
   /\ Filename Fixture.f_cfg <> "")
  /\ fileNameOnly f' ++ Go.filepath_Ext "app.log" = "app.log"
  /\ suffix f' = ".log"
  /\ forall stamp num, archiveName f' stamp num <> Filename f'.
Proof.
  intros w f'.
  assert (Hc : "{}" <> "") by discriminate.
  assert (Hu : Fixture.decode "{}" (registered 7) = (None, Fixture.f_cfg)) by reflexivity.
  assert (Hn : Filename Fixture.f_cfg <> "") by discriminate.
  destruct (Init_derives_names Fixture.decode Fixture.no_levels "{}" (registered 7)
              Fixture.f_cfg w Hc Hu Hn)
    as (_ & Ha & Hb & _ & _ & Hd).
  exact (conj (conj Hc (conj Hu Hn)) (conj Ha (conj Hb Hd))).
Defined.

Lemma Init_rejects_without_opening_witness :
  let w := Fixture.w_app Fixture.no_faults (Fixture.day 18629 + 5) in
  let keep : string -> fileLogger -> option error * fileLogger := fun _ f => (None, f) in
  let o := Init keep Fixture.no_levels "{}" (registered 7) w in
  ("{}" <> "" /\ keep "{}" (registered 7) = (None, registered 7)
   /\ Filename (registered 7) = "")
  /\ out_err o = Some (errors_New "jsonConfig must have filename")
  /\ out_world o = w.
Proof.
  intros w keep o.
  assert (Hc : "{}" <> "") by discriminate.
  assert (Hu : keep "{}" (registered 7) = (None, registered 7)) by reflexivity.
  assert (Hn : Filename (registered 7) = "") by reflexivity.
  destruct (Init_rejects_without_opening keep Fixture.no_levels "{}" (registered 7)
              None (registered 7) w Hc Hu (or_intror (or_introl Hn)))
    as (_ & Hw & _ & He).
  exact (conj (conj Hc (conj Hu Hn)) (conj (He eq_refl Hn) Hw)).
Defined.

(** ** A sequence of writes *)

Lemma never_due f size day :
  Append f = false \/ (MaxLines f <= 0 /\ MaxSize f <= 0 /\ Daily f = false) ->
  Append f = false \/ needCreateFresh f size day = false.
Proof.
  intros [H|(H1 & H2 & H3)]; [by left|right].
  apply not_true_iff_false. rewrite needCreateFresh_go. rewrite H3. intros [?|[?|[? _]]]; [lia|lia|done].
Qed.

Lemma write_seq_cons e entries level f w :
  write_seq (e :: entries) level f w
  = write_seq entries level
      (out_logger (LogWrite (fst e) (IString (snd e)) level f w))
      (out_world (LogWrite (fst e) (IString (snd e)) level f w)).
Proof. destruct e. reflexivity. Qed.

(** X15: with [Append] off, or with the three limits off, a sequence of writes
    on an open handle, none of which fails, never rotates: the file behind
    the handle ends with the messages in the order they were written, each
    followed by one line terminator, none lost or repeated, and no
    directory entry changes. *)
Theorem write_seq_appends_in_order entries level f w h ino :
  level <= LogLevel f ->
  Append f = false \/ (MaxLines f <= 0 /\ MaxSize f <= 0 /\ Daily f = false) ->
  fileWriter f = Some h -> h_closed h = false ->
  w_inodes w !! h_ino h = Some ino -> w_fails w (SysWrite (h_ino h)) = false ->
  let r := write_seq entries level f w in
  (i_data <$> w_inodes (snd r) !! h_ino h)
  = Some (i_data ino
            ++ concat (map (fun e => Go.bytes_of (snd e) ++ [Go.newline]) entries))%list
  /\ w_names (snd r) = w_names w
  /\ w_stderr (snd r) = w_stderr w
  /\ fileWriter (fst r) = Some h.
Proof.
  revert f w ino. induction entries as [|[when msg] entries IH];
    intros f w ino Hl Hoff Hfw Hc Hi Hf r; subst r.
  - cbn. rewrite Hi. cbn. by rewrite app_nil_r.
  - rewrite write_seq_cons. cbn [fst snd].
    rewrite (LogWrite_passed _ _ _ _ _ Hl).
    rewrite rotate_if_due_not_due by (apply never_due; exact Hoff).
    cbv zeta. cbn [fst snd]. rewrite Hfw, (file_Write_done h _ w ino Hc Hf Hi).
    unfold out_logger, out_world. cbn [fst snd].
    set (f1 := set_counters _ _ f). set (w1 := set_fs _ _ w).
    assert (Hi1 : w_inodes w1 !! h_ino h
                  = Some (mkInode (i_dir ino) (i_data ino ++ Go.bytes_of (msg ++ Go.nl))
                            (i_mode ino) (w_now w)))
      by (subst w1; cbn; apply lookup_insert_eq).
    destruct (IH f1 w1 _ Hl Hoff Hfw Hc Hi1 Hf) as (Hd & Hn & Hs & Hh).
    rewrite Hd, Hn, Hs, Hh. cbn [i_data map concat].
    rewrite bytes_of_line, <- !app_assoc. repeat split.
Qed.

Lemma write_seq_appends_in_order_witness :
  let w := Fixture.w_app Fixture.no_faults (Fixture.day 18629 + 5) in
  let f := set_MaxSize 0 Fixture.f_cfg_open in
  let entries := [(Fixture.day 18629 + 7, "one"); (Fixture.day 18631, "two")] in
  let r := write_seq entries 3 f w in
  (3 <= LogLevel f
   /\ (Append f = false \/ (MaxLines f <= 0 /\ MaxSize f <= 0 /\ Daily f = false))
   /\ fileWriter f = Some (mkHandle "app.log" 1 false)
   /\ w_inodes w !! 1%nat = Some Fixture.two_lines)
  /\ (i_data <$> w_inodes (snd r) !! 1%nat)
     = Some (Go.bytes_of ("a" ++ Go.nl ++ "b" ++ Go.nl ++ "one" ++ Go.nl ++ "two" ++ Go.nl)).
Proof.
  intros w f entries r.
  assert (Hl : 3 <= LogLevel f) by (vm_compute; discriminate).
  assert (Hoff : Append f = false \/ (MaxLines f <= 0 /\ MaxSize f <= 0 /\ Daily f = false))
    by (left; reflexivity).
  assert (Hfw : fileWriter f = Some (mkHandle "app.log" 1 false)) by reflexivity.
  assert (Hi : w_inodes w !! 1%nat = Some Fixture.two_lines) by reflexivity.
  exact (conj (conj Hl (conj Hoff (conj Hfw Hi)))
           (proj1 (write_seq_appends_in_order entries 3 f w (mkHandle "app.log" 1 false)
                     Fixture.two_lines Hl Hoff Hfw eq_refl Hi eq_refl))).
Defined.
